(** * Geological feature tool: pixel picking, geo-referencing and GeoJSON export

    A shallow embedding of

      - [terrain_extractor_app.js]: the picking session ([geoBounds],
        [picked], the canvas), [pixelToLatLon], [onImageClick],
        [maskByColor], [dummyFindContours], [setGeoBounds],
        [plotGeoJSONOnMap] and the [onload] handler of [loadImage];
      - [terrain-web/lib/export.ts]: [exportGeoJSON];
      - [terrain-web]'s page: the handlers of [ImageCanvas] and
        [handleExport] of [Home];
      - [autoedit_fix.sh]: the retry loop.

    JavaScript numbers are IEEE 754 binary64 values.  The arithmetic of the
    program is written once, over the interface [Number], and read at two
    instances: [binary64] (Rocq's primitive floats, the arithmetic the
    program runs) and [rational] (exact rationals, the arithmetic of the formulas
    when nothing is rounded).  Channel values, indices and canvas sizes are
    integers and are modelled in [Z]. *)

From Stdlib Require Import ZArith QArith Floats Uint63 String Ascii Lia Lqa.
From Stdlib Require Import Qround DecimalString DecimalZ DecimalPos.
From stdpp Require Import base list.

Set Default Proof Using "Type".
Set Warnings "-inexact-float".
Open Scope Z_scope.

(** ** Numbers *)

Class Number (num : Type) := {
  num_add : num -> num -> num;
  num_sub : num -> num -> num;
  num_mul : num -> num -> num;
  num_div : num -> num -> num;
  num_of_int : Z -> num
}.

Declare Scope num_scope.
Delimit Scope num_scope with num.
Infix "+" := num_add : num_scope.
Infix "-" := num_sub : num_scope.
Infix "*" := num_mul : num_scope.
Infix "/" := num_div : num_scope.

(** The conversion of an integer to a double; exact below 2^53. *)
Definition float_of_int (z : Z) : float :=
  if z <? 0 then PrimFloat.opp (PrimFloat.of_uint63 (Uint63.of_Z (- z)))
  else PrimFloat.of_uint63 (Uint63.of_Z z).

#[export] Instance binary64 : Number float := {
  num_add := PrimFloat.add;
  num_sub := PrimFloat.sub;
  num_mul := PrimFloat.mul;
  num_div := PrimFloat.div;
  num_of_int := float_of_int
}.

#[export] Instance rational : Number Q := {
  num_add := Qplus;
  num_sub := Qminus;
  num_mul := Qmult;
  num_div := Qdiv;
  num_of_int := inject_Z
}.

(** ** Completions: a call returns or throws *)

Inductive JSException : Type :=
  | TypeError
  | IndexSizeError.

Inductive completion (A : Type) : Type :=
  | Normal (a : A)
  | Throw (e : JSException).
Arguments Normal {A} a.
Arguments Throw {A} e.

#[export] Instance completion_ret : MRet completion := @Normal.
#[export] Instance completion_bind : MBind completion := fun A B k m =>
  match m with
  | Normal a => k a
  | Throw e => Throw e
  end.

(** [a >= b] and [a <= b] of JavaScript on array reads: a read past the end is
    [undefined], and every comparison with [undefined] is false. *)
Definition js_ge (a b : option Z) : bool :=
  match a, b with
  | Some a, Some b => b <=? a
  | _, _ => false
  end.

Definition js_le (a b : option Z) : bool :=
  match a, b with
  | Some a, Some b => a <=? b
  | _, _ => false
  end.

(** The decimal text of an integer-valued number, as string conversion
    prints it. *)
Definition int_to_string (z : Z) : string :=
  NilZero.string_of_int (Z.to_int z).

(** ** The session of [terrain_extractor_app.js] *)

Record GeoBounds (num : Type) : Type := mkGeoBounds {
  north : num;
  south : num;
  east : num;
  west : num
}.
Arguments mkGeoBounds {num}.
Arguments north {num}.
Arguments south {num}.
Arguments east {num}.
Arguments west {num}.

(** The canvas: its size, its bitmap (RGBA bytes, row by row) and the origin
    of its bounding client rectangle. *)
Record Canvas : Type := mkCanvas {
  width : Z;
  height : Z;
  bitmap : list Z;
  rect_left : Z;
  rect_top : Z
}.

(** The bitmap holds four bytes for each of the [width * height] pixels. *)
Definition canvas_wf (cv : Canvas) : Prop :=
  0 < width cv /\ 0 < height cv /\
  Z.of_nat (length (bitmap cv)) = 4 * (width cv * height cv).

Record Image : Type := mkImage {
  img_width : Z;
  img_height : Z
}.

(** An entry of [picked]: [{ color: rgb, label, contours }]. *)
Record PickedFeature (num : Type) : Type := mkPickedFeature {
  color : list Z;
  label : string;
  contours : list (list (list num))
}.
Arguments mkPickedFeature {num}.
Arguments color {num}.
Arguments label {num}.
Arguments contours {num}.

(** The globals [canvas], [image], [geoBounds] and [picked]. *)
Record Session (num : Type) : Type := mkSession {
  canvas : Canvas;
  image : option Image;
  geoBounds : option (GeoBounds num);
  picked : list (PickedFeature num)
}.
Arguments mkSession {num}.
Arguments canvas {num}.
Arguments image {num}.
Arguments geoBounds {num}.
Arguments picked {num}.

(** A click on the canvas, with the answer the user gives to the [prompt]
    that the handler opens ([None] when the dialog is cancelled). *)
Record ClickEvent : Type := mkClickEvent {
  clientX : Z;
  clientY : Z;
  prompt_answer : option string
}.

(** *** Reading the canvas *)

(** Channel [c] of pixel [(x, y)]; transparent black outside the canvas. *)
Definition canvas_channel (cv : Canvas) (x y c : Z) : Z :=
  if (0 <=? x) && (x <? width cv) && (0 <=? y) && (y <? height cv)
  then bitmap cv !!! Z.to_nat (4 * (y * width cv + x) + c)
  else 0.

(** [ctx.getImageData(sx, sy, sw, sh).data] for non-negative [sw] and [sh]:
    the RGBA bytes of the rectangle, row by row; a rectangle without pixels
    is refused. *)
Definition getImageData (cv : Canvas) (sx sy sw sh : Z) : completion (list Z) :=
  if (sw =? 0) || (sh =? 0) then Throw IndexSizeError
  else
    Normal (mjoin ((fun i =>
              (fun c => canvas_channel cv (sx + i `mod` sw) (sy + i `div` sw) c)
                <$> [0; 1; 2; 3])
            <$> seqZ 0 (sw * sh))).

(** *** [maskByColor] *)

(** The value stored in [mask[i]] by the body of the loop. *)
Definition mask_entry (imgData lower upper : list Z) (i : nat) : Z :=
  let j := (i * 4)%nat in
  let r := imgData !! j in
  let g := imgData !! (j + 1)%nat in
  let b := imgData !! (j + 2)%nat in
  if js_ge r (lower !! 0%nat) && js_le r (upper !! 0%nat) &&
     js_ge g (lower !! 1%nat) && js_le g (upper !! 1%nat) &&
     js_ge b (lower !! 2%nat) && js_le b (upper !! 2%nat)
  then 1 else 0.

(** [function maskByColor(lower, upper)]: a zero-filled [Uint8Array] with one
    cell per pixel, written cell by cell by the [for] loop. *)
Definition maskByColor (lower upper : list Z) (cv : Canvas) : completion (list Z) :=
  imgData ← getImageData cv 0 0 (width cv) (height cv);
  let mask := replicate (Z.to_nat (width cv * height cv)) 0 in
  mret (foldl (fun mask i => <[i := mask_entry imgData lower upper i]> mask)
              mask (seq 0 (length mask))).

(** The three statements of [onImageClick] that turn the picked colour and
    the tolerance into the window and the mask; the handler runs them with
    [tolerance = 30]. *)
Definition computeMask (cv : Canvas) (rgb : list Z) (tolerance : Z)
  : completion (list Z) :=
  let lower := (fun v => Z.max 0 (v - tolerance)) <$> rgb in
  let upper := (fun v => Z.min 255 (v + tolerance)) <$> rgb in
  maskByColor lower upper cv.

Section App.
Context {num : Type} `{Number num}.
Local Open Scope num_scope.

(** [function pixelToLatLon(x, y)]; destructuring a [null] [geoBounds]
    throws. *)
Definition pixelToLatLon (x y : num) (s : Session num) : completion (num * num) :=
  match geoBounds s with
  | None => Throw TypeError
  | Some b =>
      let lon := west b + (x / num_of_int (width (canvas s))) * (east b - west b) in
      let lat := north b - (y / num_of_int (height (canvas s))) * (north b - south b) in
      Normal (lon, lat)
  end.

(** [function dummyFindContours(mask)] *)
Definition dummyFindContours (mask : list Z) : list (list (list num)) := [].

(** The colour under the click: [[pixel[0], pixel[1], pixel[2]]]. *)
Definition clicked_rgb (e : ClickEvent) (cv : Canvas) : completion (list Z) :=
  let x := (clientX e - rect_left cv)%Z in
  let y := (clientY e - rect_top cv)%Z in
  pixel ← getImageData cv x y 1 1;
  mret [pixel !!! 0%nat; pixel !!! 1%nat; pixel !!! 2%nat].

(** [function onImageClick(e)] *)
Definition onImageClick (e : ClickEvent) (s : Session num) : completion (Session num) :=
  match image s, geoBounds s with
  | Some _, Some _ =>
      rgb ← clicked_rgb e (canvas s);
      match prompt_answer e with
      | None | Some EmptyString => mret s
      | Some label =>
          let tolerance := 30%Z in
          mask ← computeMask (canvas s) rgb tolerance;
          let contours := dummyFindContours mask in
          mret (mkSession (canvas s) (image s) (geoBounds s)
                  (picked s ++ [mkPickedFeature rgb label contours]))
      end
  | _, _ => mret s
  end.

(** [function setGeoBounds(north, south, east, west)] *)
Definition setGeoBounds (north south east west : num) (s : Session num) : Session num :=
  mkSession (canvas s) (image s) (Some (mkGeoBounds north south east west)) (picked s).

(** The event loop: a handler that throws leaves the globals as they were
    when it threw, and the next event is handled. *)
Definition dispatch_click (s : Session num) (e : ClickEvent) : Session num :=
  match onImageClick e s with
  | Normal s' => s'
  | Throw _ => s
  end.

Definition run_clicks (es : list ClickEvent) (s : Session num) : Session num :=
  foldl dispatch_click s es.
End App.

(** ** [terrain-web/lib/export.ts] *)

(** The object literals that [exportGeoJSON] builds.  A cell of a coordinate
    array is [None] when the value written there is [undefined]. *)
Record Geometry (num : Type) : Type := mkGeometry {
  geometry_type : string;
  coordinates : list (list (list (option num)))
}.
Arguments mkGeometry {num}.
Arguments geometry_type {num}.
Arguments coordinates {num}.

Record Properties : Type := mkProperties {
  properties_id : nat;
  properties_color : string
}.

Record Feature (num : Type) : Type := mkFeature {
  feature_type : string;
  geometry : Geometry num;
  properties : Properties
}.
Arguments mkFeature {num}.
Arguments feature_type {num}.
Arguments geometry {num}.
Arguments properties {num}.

Record FeatureCollection (num : Type) : Type := mkFeatureCollection {
  collection_type : string;
  features : list (Feature num)
}.
Arguments mkFeatureCollection {num}.
Arguments collection_type {num}.
Arguments features {num}.

(** A file handed to the browser by [saveAs(blob, name)]: the name, and the
    type and the text of the blob. *)
Record SavedFile : Type := mkSavedFile {
  file_name : string;
  file_type : string;
  file_text : string
}.

(** What surrounds a call: the state of the page that calls, of any type, and
    the files saved so far. *)
Record Browser (St : Type) : Type := mkBrowser {
  page_state : St;
  downloads : list SavedFile
}.
Arguments mkBrowser {St}.
Arguments page_state {St}.
Arguments downloads {St}.

Section ExportModule.
Context {num : Type}.

(** [JSON.stringify(geojson, null, 2)] belongs to the platform. *)
Variable JSON_stringify : FeatureCollection num -> string.

(** [([x, y]) => [x, y]]: the first two cells of the entry, read as array
    destructuring reads them. *)
Definition copy_point (p : list num) : list (option num) :=
  [p !! 0%nat; p !! 1%nat].

(** [`rgb(${color.join(",")})`]; the channels are the bytes that the
    canvas hands to [onColorPick]. *)
Definition rgb_string (color : Z * Z * Z) : string :=
  let '(r, g, b) := color in
  ("rgb(" ++ String.concat "," (int_to_string <$> [r; g; b]) ++ ")")%string.

(** [const features = polygons.map((ring, i) => ({ ... }))] *)
Definition exportGeoJSON_features (polygons : list (list (list num)))
    (color : Z * Z * Z) : list (Feature num) :=
  imap (fun i ring =>
          mkFeature "Feature"
            (mkGeometry "Polygon" [copy_point <$> ring])
            (mkProperties i (rgb_string color)))
       polygons.

(** [const geojson = { type: "FeatureCollection", features }] *)
Definition exportGeoJSON_geojson (polygons : list (list (list num)))
    (color : Z * Z * Z) : FeatureCollection num :=
  mkFeatureCollection "FeatureCollection" (exportGeoJSON_features polygons color).

(** [export function exportGeoJSON(polygons, color)] *)
Definition exportGeoJSON {St : Type} (polygons : list (list (list num)))
    (color : Z * Z * Z) (w : Browser St) : Browser St :=
  let geojson := exportGeoJSON_geojson polygons color in
  let blob := (JSON_stringify geojson, "application/json"%string) in
  mkBrowser (page_state w)
    (downloads w ++ [mkSavedFile "features.geojson" (snd blob) (fst blob)]).

(** [handleExport] of the page of [terrain-web]: the rectangle drawn on the
    canvas, exported with the picked colour. *)
Definition handleExport
    (w : Browser (option (Z * Z * Z) * option ((num * num) * (num * num))))
  : Browser (option (Z * Z * Z) * option ((num * num) * (num * num))) :=
  match page_state w with
  | (Some color, Some (start, end_)) =>
      let dummyPolygon :=
        [ [start.1; start.2];
          [end_.1; start.2];
          [end_.1; end_.2];
          [start.1; end_.2];
          [start.1; start.2] ] in
      exportGeoJSON [dummyPolygon] color w
  | _ => w
  end.
End ExportModule.

(** ** Notions that the properties are stated with *)

(** The canvas is a raster: it has pixels. *)
Definition raster (cv : Canvas) : Prop := 0 < width cv /\ 0 < height cv.

(** Channel [v] lies in the window of tolerance [tol] around the target
    channel [t], clamped to the range of a byte. *)
Definition in_window (t tol v : Z) : Prop :=
  Z.max 0 (t - tol) <= v <= Z.min 255 (t + tol).

Definition pixel_in_window (cv : Canvas) (r g b tol x y : Z) : Prop :=
  in_window r tol (canvas_channel cv x y 0) /\
  in_window g tol (canvas_channel cv x y 1) /\
  in_window b tol (canvas_channel cv x y 2).

(** The colour under a click. *)
Definition clicked_color (cv : Canvas) (e : ClickEvent) : list Z :=
  let x := clientX e - rect_left cv in
  let y := clientY e - rect_top cv in
  [canvas_channel cv x y 0; canvas_channel cv x y 1; canvas_channel cv x y 2].

(** The feature that a click adds: none when the prompt is cancelled or left
    empty. *)
Definition added_feature {num : Type} (cv : Canvas) (e : ClickEvent)
  : option (PickedFeature num) :=
  match prompt_answer e with
  | None | Some EmptyString => None
  | Some label => Some (mkPickedFeature (clicked_color cv e) label [])
  end.

(** ** Examples *)

(** The session that the README describes: a 600 x 400 canvas under the
    bounds of its example (the bitmap, which the transform never reads, is
    left empty). *)
Definition readme_bounds : GeoBounds float :=
  mkGeoBounds 22.7%float 22.5%float 88.6%float 88.3%float.

Definition readme_session : Session float :=
  mkSession (mkCanvas 600 400 [] 0 0) None (Some readme_bounds) [].

(** Bounds given the wrong way round: north 22.5 under south 22.7, east 88.3
    before west 88.6. *)
Definition reversed_bounds : GeoBounds float :=
  mkGeoBounds 22.5%float 22.7%float 88.3%float 88.6%float.

(** The session of the README with the bounds read as decimal fractions. *)
Definition rational_session : Session Q :=
  mkSession (mkCanvas 600 400 [] 0 0) None
    (Some (mkGeoBounds (227 # 10) (225 # 10) (886 # 10) (883 # 10))) [].

(** A raster of two pixels, (120, 90, 110) and (140, 100, 100), both opaque. *)
Definition two_pixels : Canvas :=
  mkCanvas 2 1 [120; 90; 110; 255; 140; 100; 100; 255] 0 0.

(** A session ready for picking on that raster, and four clicks: twice on the
    first pixel with the same label, once cancelled, once on the second
    pixel. *)
Definition picking_session : Session float :=
  mkSession two_pixels (Some (mkImage 2 1)) (Some readme_bounds) [].

Definition four_clicks : list ClickEvent :=
  [mkClickEvent 0 0 (Some "water"%string);
   mkClickEvent 0 0 (Some "water"%string);
   mkClickEvent 1 0 None;
   mkClickEvent 1 0 (Some "rock"%string)].

(** ** The rest of [terrain_extractor_app.js] *)

(** The globals as the script declares them ([image = null],
    [geoBounds = null], [picked = []]), on a page whose canvas is [cv]. *)
Definition initial_session {num : Type} (cv : Canvas) : Session num :=
  mkSession cv None None [].

(** [img.onload] in [loadImage]: the canvas takes the size of the image, the
    image is drawn on it and becomes [image].  [pixels] are the bytes that
    the canvas holds once the image is drawn; the origin of the canvas on the
    page is taken to stay where it was. *)
Definition image_onload {num : Type} (img : Image) (pixels : list Z)
    (s : Session num) : Session num :=
  mkSession
    (mkCanvas (img_width img) (img_height img) pixels
       (rect_left (canvas s)) (rect_top (canvas s)))
    (Some img) (geoBounds s) (picked s).

(** What happens to a session: an image finishes loading, bounds are set, the
    canvas is clicked. *)
Inductive AppEvent (num : Type) : Type :=
  | ImageLoaded (img : Image) (pixels : list Z)
  | BoundsSet (north south east west : num)
  | Clicked (e : ClickEvent).
Arguments ImageLoaded {num}.
Arguments BoundsSet {num}.
Arguments Clicked {num}.

Definition app_step {num : Type} `{Number num} (s : Session num)
    (ev : AppEvent num) : Session num :=
  match ev with
  | ImageLoaded img pixels => image_onload img pixels s
  | BoundsSet n so e w => setGeoBounds n so e w s
  | Clicked e => dispatch_click s e
  end.

Definition app_run {num : Type} `{Number num} (evs : list (AppEvent num))
    (s : Session num) : Session num :=
  foldl app_step s evs.

(** The number that arithmetic makes of a destructured cell: [undefined]
    becomes NaN. *)
Definition to_number (v : option float) : float := default nan v.

Section Plot.
(** A point of the map, in the projection of its view. *)
Context {P : Type}.

(** [ol.proj.fromLonLat(coord)] belongs to the mapping library. *)
Variable fromLonLat : float * float -> P.

(** The line string of one contour:
    [c.map(([x, y]) => pixelToLatLon(x, y))], then every coordinate
    projected. *)
Definition contour_line (s : Session float) (c : list (list float))
  : completion (list P) :=
  coordinates ← mapM (fun p =>
      pixelToLatLon (to_number (p !! 0%nat)) (to_number (p !! 1%nat)) s) c;
  mret (fromLonLat <$> coordinates).

(** [picked.flatMap(item => item.contours.map(c => ...))] *)
Definition plot_features (s : Session float) : completion (list (list P)) :=
  per_item ← mapM (fun item => mapM (contour_line s) (contours item)) (picked s);
  mret (concat per_item).

(** [function plotGeoJSONOnMap()]; the map is the list of its vector layers,
    a layer the list of its line strings. *)
Definition plotGeoJSONOnMap (s : Session float) (map : list (list (list P)))
  : completion (list (list (list P))) :=
  match geoBounds s with
  | None => mret map
  | Some _ =>
      features ← plot_features s;
      match features with
      | [] => mret map
      | _ => mret (map ++ [features])
      end
  end.
End Plot.

(** Every byte of the bitmap is a byte. *)
Definition bitmap_bytes (cv : Canvas) : Prop :=
  Forall (fun v => 0 <= v <= 255) (bitmap cv).

(** What every feature added by a click looks like: three channels, a label
    that is not empty, no contour. *)
Definition labelled {num : Type} (f : PickedFeature num) : Prop :=
  label f <> EmptyString /\ length (color f) = 3%nat.

Definition without_contours {num : Type} (f : PickedFeature num) : Prop :=
  contours f = [].

(** Every contour of every picked feature, in order. *)
Definition picked_contours (s : Session float) : list (list (list float)) :=
  concat (contours <$> picked s).

(** The line string that a contour becomes under bounds [b]. *)
Definition line_of {P : Type} (fromLonLat : float * float -> P)
    (s : Session float) (b : GeoBounds float) (c : list (list float)) : list P :=
  (fun p =>
     fromLonLat
       (west b + (to_number (p !! 0%nat) / float_of_int (width (canvas s)))
                 * (east b - west b),
        north b - (to_number (p !! 1%nat) / float_of_int (height (canvas s)))
                  * (north b - south b))%float) <$> c.

(** ** The page of [terrain-web]: [ImageCanvas] and [Home] *)

(** A mouse event on the canvas of the component, with the origin of the
    bounding client rectangle that its handler reads. *)
Record MouseEvent (num : Type) : Type := mkMouseEvent {
  mouse_clientX : num;
  mouse_clientY : num;
  mouse_rect_left : num;
  mouse_rect_top : num
}.
Arguments mkMouseEvent {num}.
Arguments mouse_clientX {num}.
Arguments mouse_clientY {num}.
Arguments mouse_rect_left {num}.
Arguments mouse_rect_top {num}.

(** The state of [ImageCanvas] ([img], [start]) with the canvas that it
    renders, and the state of [Home] ([color], [bounds]). *)
Record ImageCanvasState (num : Type) : Type := mkImageCanvasState {
  img : option Image;
  start : option (num * num);
  rendered : Canvas
}.
Arguments mkImageCanvasState {num}.
Arguments img {num}.
Arguments start {num}.
Arguments rendered {num}.

Definition HomeState (num : Type) : Type :=
  (option (Z * Z * Z) * option ((num * num) * (num * num)))%type.

Definition Page (num : Type) : Type :=
  (ImageCanvasState num * Browser (HomeState num))%type.

(** What happens on the page.  When the image has loaded, the component
    renders the canvas again and draws the image on it: the event carries
    the canvas that results. *)
Inductive PageEvent (num : Type) : Type :=
  | ImageOnLoad (image : Image) (drawn : Canvas)
  | MouseDown (e : MouseEvent num)
  | MouseUp (e : MouseEvent num)
  | MouseClick (e : MouseEvent num)
  | ExportButton.
Arguments ImageOnLoad {num}.
Arguments MouseDown {num}.
Arguments MouseUp {num}.
Arguments MouseClick {num}.
Arguments ExportButton {num}.

Section PageModel.
Context {num : Type} `{Number num}.
Local Open Scope num_scope.

(** [Math.floor], to the integer that [getImageData] receives. *)
Variable floor : num -> Z.

Variable JSON_stringify : FeatureCollection num -> string.

(** [setColor] and [setBounds] of [Home], passed as [onColorPick] and
    [onBoundsDraw]. *)
Definition setColor (c : Z * Z * Z) (w : Browser (HomeState num))
  : Browser (HomeState num) :=
  mkBrowser (Some c, (page_state w).2) (downloads w).

Definition setBounds (b : (num * num) * (num * num)) (w : Browser (HomeState num))
  : Browser (HomeState num) :=
  mkBrowser ((page_state w).1, Some b) (downloads w).

(** [handleClick] *)
Definition handleClick (e : MouseEvent num) (p : Page num) : completion (Page num) :=
  let '(c, w) := p in
  match img c with
  | None => mret p
  | Some _ =>
      let x := floor (mouse_clientX e - mouse_rect_left e) in
      let y := floor (mouse_clientY e - mouse_rect_top e) in
      pixel ← getImageData (rendered c) x y 1 1;
      mret (c, setColor (pixel !!! 0%nat, pixel !!! 1%nat, pixel !!! 2%nat) w)
  end.

(** [handleMouseDown] *)
Definition handleMouseDown (e : MouseEvent num) (p : Page num) : Page num :=
  let '(c, w) := p in
  (mkImageCanvasState (img c)
     (Some (mouse_clientX e - mouse_rect_left e, mouse_clientY e - mouse_rect_top e))
     (rendered c),
   w).

(** [handleMouseUp] *)
Definition handleMouseUp (e : MouseEvent num) (p : Page num) : Page num :=
  let '(c, w) := p in
  match start c with
  | None => p
  | Some s =>
      let end_ := (mouse_clientX e - mouse_rect_left e,
                   mouse_clientY e - mouse_rect_top e) in
      (mkImageCanvasState (img c) None (rendered c), setBounds (s, end_) w)
  end.

(** [image.onload = () => setImg(image)], and the rendering that follows. *)
Definition handleImageLoad (image : Image) (drawn : Canvas) (p : Page num) : Page num :=
  let '(c, w) := p in
  (mkImageCanvasState (Some image) (start c) drawn, w).

(** One event; a handler that throws leaves the page as it was. *)
Definition page_step (p : Page num) (ev : PageEvent num) : Page num :=
  match ev with
  | ImageOnLoad image drawn => handleImageLoad image drawn p
  | MouseDown e => handleMouseDown e p
  | MouseUp e => handleMouseUp e p
  | MouseClick e =>
      match handleClick e p with
      | Normal p' => p'
      | Throw _ => p
      end
  | ExportButton => (p.1, handleExport JSON_stringify p.2)
  end.

Definition page_run (evs : list (PageEvent num)) (p : Page num) : Page num :=
  foldl page_step p evs.

(** The page as it is first rendered, around a canvas [cv]. *)
Definition initial_page (cv : Canvas) : Page num :=
  (mkImageCanvasState None None cv, mkBrowser (None, None) []).
End PageModel.

(** The kinds of events on the page. *)
Definition is_load {num : Type} (ev : PageEvent num) : bool :=
  match ev with ImageOnLoad _ _ => true | _ => false end.

Definition is_mouse_down {num : Type} (ev : PageEvent num) : bool :=
  match ev with MouseDown _ => true | _ => false end.

Definition is_mouse_up {num : Type} (ev : PageEvent num) : bool :=
  match ev with MouseUp _ => true | _ => false end.

Definition is_click {num : Type} (ev : PageEvent num) : bool :=
  match ev with MouseClick _ => true | _ => false end.

(** The point of the canvas under a mouse event. *)
Definition canvas_point {num : Type} `{Number num} (e : MouseEvent num) : num * num :=
  (num_sub (mouse_clientX e) (mouse_rect_left e),
   num_sub (mouse_clientY e) (mouse_rect_top e)).

(** The rectangle between two points, as [handleExport] writes it. *)
Definition rectangle_ring {num : Type} (a b : num * num) : list (list (option num)) :=
  [[Some a.1; Some a.2]; [Some b.1; Some a.2]; [Some b.1; Some b.2];
   [Some a.1; Some b.2]; [Some a.1; Some a.2]].

(** The character [c] does not occur in [s]. *)
Fixpoint string_avoids (c : ascii) (s : string) : Prop :=
  match s with
  | EmptyString => True
  | String a s' => a <> c /\ string_avoids c s'
  end.

(** Feature [f] with its [id] moved up by [k]. *)
Definition shift_id {num : Type} (k : nat) (f : Feature num) : Feature num :=
  mkFeature (feature_type f) (geometry f)
    (mkProperties (k + properties_id (properties f))
       (properties_color (properties f))).

(** ** [autoedit_fix.sh] *)

(** What the script keeps of a reply: [FIXED_CMD], [STRATEGY], [FILE] and
    [PATCH_CONTENT], as its pipelines of [awk], [xargs] and [sed] cut them
    out of the response. *)
Record Reply : Type := mkReply {
  fixed_cmd : string;
  strategy : string;
  file_change : string;
  patch_content : string
}.

(** The blocks that the script appends to its log file (their date lines
    left out). *)
Inductive LogEntry : Type :=
  | LogSuccess (cmd : string)
  | LogFix (original output fixed explanation : string)
  | LogOverwrite (file : string).

(** What the script does to the machine: it runs a command, asks for a fix,
    overwrites a file, appends to its log. *)
Inductive Action : Type :=
  | Run (cmd : string)
  | Ask (cmd output : string)
  | Overwrite (file content : string)
  | Log (entry : LogEntry).

Record Outcome : Type := mkOutcome {
  exit_status : Z;
  actions : list Action
}.

Definition MAX_RETRIES : nat := 3.

Definition is_run (a : Action) : bool :=
  match a with Run _ => true | _ => false end.

Definition is_ask (a : Action) : bool :=
  match a with Ask _ _ => true | _ => false end.

Section AutoEdit.
(** The machine and the model that is asked: the status and the output of
    the command run at a given attempt, and the reply to the question asked
    at that attempt. *)
Variable run : nat -> string -> Z * string.
Variable ask : nat -> string -> string -> Reply.

(** The [while] loop, with the number of turns that [RETRY] leaves before
    [MAX_RETRIES]; when none is left the script prints its last line and
    ends with the status of that [echo]. *)
Fixpoint retry_loop (turns RETRY : nat) (CMD : string) (acts : list Action)
  : Outcome :=
  match turns with
  | O => mkOutcome 0 acts
  | S turns' =>
      let '(STATUS, OUTPUT) := run RETRY CMD in
      let acts := acts ++ [Run CMD] in
      if STATUS =? 0 then mkOutcome 0 (acts ++ [Log (LogSuccess CMD)])
      else
        let reply := ask RETRY CMD OUTPUT in
        let acts := acts ++ [Ask CMD OUTPUT] in
        match fixed_cmd reply with
        | EmptyString => mkOutcome 1 acts
        | FIXED_CMD =>
            let acts :=
              acts ++ [Log (LogFix CMD OUTPUT FIXED_CMD (strategy reply))] in
            let acts :=
              match file_change reply with
              | EmptyString => acts
              | FILE =>
                  acts ++ [Overwrite FILE
                             (patch_content reply ++ String "010" EmptyString);
                           Log (LogOverwrite FILE)]
              end in
            retry_loop turns' (S RETRY) FIXED_CMD acts
        end
  end.

(** The script, from its arguments. *)
Definition autoedit_fix (args : list string) : Outcome :=
  match args with
  | [] => mkOutcome 1 []
  | _ => retry_loop MAX_RETRIES 0 (String.concat " " args) []
  end.
End AutoEdit.

(** The commands that the script has run, in order. *)
Definition commands_run (acts : list Action) : list string :=
  omap (fun a => match a with Run cmd => Some cmd | _ => None end) acts.

Section AutoEditChain.
Variable run : nat -> string -> Z * string.
Variable ask : nat -> string -> string -> Reply.

(** The command of attempt [k] when the script starts from [cmd0]: the fix
    proposed for the failure of the attempt before. *)
Fixpoint command_at (k : nat) (cmd0 : string) : string :=
  match k with
  | O => cmd0
  | S k' =>
      let cmd := command_at k' cmd0 in
      fixed_cmd (ask k' cmd (run k' cmd).2)
  end.
End AutoEditChain.

(** ** Further examples *)

(** A canvas without pixels, in a session otherwise ready for picking. *)
Definition empty_session : Session float :=
  mkSession (mkCanvas 0 0 [] 0 0) (Some (mkImage 0 0)) (Some readme_bounds) [].

(** The raster of two pixels with other alpha bytes. *)
Definition two_pixels_translucent : Canvas :=
  mkCanvas 2 1 [120; 90; 110; 0; 140; 100; 100; 7] 0 0.

(** A press at (10, 20), a release at (110, 70) and a click at (1.5, 0.5), on a
    canvas whose rectangle starts at the origin; and a page on which an image
    of two pixels has loaded. *)
Definition press : MouseEvent Q := mkMouseEvent (10 # 1) (20 # 1) (0 # 1) (0 # 1).
Definition release : MouseEvent Q := mkMouseEvent (110 # 1) (70 # 1) (0 # 1) (0 # 1).
Definition click_second : MouseEvent Q := mkMouseEvent (3 # 2) (1 # 2) (0 # 1) (0 # 1).

Definition loaded_page : Page Q :=
  (mkImageCanvasState (Some (mkImage 2 1)) None two_pixels,
   mkBrowser (None, None) []).

(** A stand-in for the serializer that keeps the colour of the first
    feature. *)
Definition first_colour (doc : FeatureCollection Q) : string :=
  match features doc with
  | f :: _ => properties_color (properties f)
  | [] => EmptyString
  end.

(** A machine on which every command fails, and a model that always answers
    with the same fix. *)
Definition always_fails (k : nat) (cmd : string) : Z * string :=
  (1, "error"%string).

Definition always_fix (k : nat) (cmd output : string) : Reply :=
  mkReply "make" "retry" "" "".

(** * Properties *)

(** ** The pixel-to-geographic transform *)

Section TransformFacts.
Context {num : Type} `{Number num}.
Local Open Scope num_scope.

Lemma pixelToLatLon_unset (s : Session num) (x y : num) :
  geoBounds s = None -> pixelToLatLon x y s = Throw TypeError.
Proof. intros Hb. unfold pixelToLatLon. now rewrite Hb. Qed.

(** C1: once [geoBounds] is set, [pixelToLatLon] returns, for every [x] and
    [y] (inside the raster or not: nothing is tested or clamped), the pair
    [west + (x / width) * (east - west)],
    [north - (y / height) * (north - south)], in whichever arithmetic the
    operations are read; it holds at every raster size, the positive ones
    included. *)
Theorem pixelToLatLon_formula (s : Session num) (b : GeoBounds num) (x y : num) :
  geoBounds s = Some b ->
  pixelToLatLon x y s =
    Normal (west b + (x / num_of_int (width (canvas s))) * (east b - west b),
            north b - (y / num_of_int (height (canvas s))) * (north b - south b)).
Proof. intros Hb. unfold pixelToLatLon. rewrite Hb. reflexivity. Qed.
End TransformFacts.

Lemma pixelToLatLon_formula_witness :
  pixelToLatLon (-5)%float 1000%float readme_session =
    Normal (88.3 + (-5 / 600) * (88.6 - 88.3), 22.7 - (1000 / 400) * (22.7 - 22.5))%float.
Proof. exact (pixelToLatLon_formula readme_session readme_bounds (-5)%float 1000%float eq_refl). Defined.

(** C5: under the bounds of the README and a 600 x 400 raster, the doubles
    that [pixelToLatLon] returns at pixel (0, 0) are 88.3 and 22.7, and at
    pixel (600, 400) they are 88.6 and 22.5. *)
Theorem pixelToLatLon_readme_corners (s : Session float) :
  geoBounds s = Some readme_bounds ->
  width (canvas s) = 600 ->
  height (canvas s) = 400 ->
  pixelToLatLon 0%float 0%float s = Normal (88.3%float, 22.7%float) /\
  pixelToLatLon 600%float 400%float s = Normal (88.6%float, 22.5%float).
Proof.
  intros Hb Hw Hh. unfold pixelToLatLon. rewrite Hb, Hw, Hh.
  split; vm_compute; reflexivity.
Qed.

Lemma pixelToLatLon_readme_corners_witness :
  pixelToLatLon 0%float 0%float readme_session = Normal (88.3%float, 22.7%float) /\
  pixelToLatLon 600%float 400%float readme_session = Normal (88.6%float, 22.5%float).
Proof. apply pixelToLatLon_readme_corners; reflexivity. Defined.


(** A check of every ordered pair of a range, turned into a statement. *)
Lemma ordered_pairs_checked (f : Z -> float) (lt : float -> float -> bool) (n i j : Z) :
  forallb (fun i => forallb (fun j => lt (f i) (f j)) (seqZ (i + 1) (n - i)))
          (seqZ 0 n) = true ->
  0 <= i -> i < j -> j <= n -> lt (f i) (f j) = true.
Proof.
  intros Hall Hi Hij Hj.
  rewrite forallb_forall in Hall.
  specialize (Hall i). rewrite <- list_elem_of_In, elem_of_seqZ in Hall.
  specialize (Hall ltac:(lia)).
  rewrite forallb_forall in Hall.
  apply Hall. rewrite <- list_elem_of_In, elem_of_seqZ. lia.
Qed.

(** Strictness is not lost on whole pixels of the README raster: the doubles
    computed for its 601 column positions are strictly increasing, and those
    computed for its 401 row positions strictly decreasing. *)
Lemma pixelToLatLon_readme_whole_pixels (i j k l : Z) :
  0 <= i -> i < j -> j <= 600 ->
  0 <= k -> k < l -> l <= 400 ->
  exists lon1 lat1 lon2 lat2,
    pixelToLatLon (float_of_int i) (float_of_int k) readme_session = Normal (lon1, lat1) /\
    pixelToLatLon (float_of_int j) (float_of_int l) readme_session = Normal (lon2, lat2) /\
    (lon1 <? lon2)%float = true /\
    (lat2 <? lat1)%float = true.
Proof.
  intros Hi Hij Hj Hk Hkl Hl.
  unfold pixelToLatLon. cbn [geoBounds readme_session].
  eexists _, _, _, _. split; [reflexivity|]. split; [reflexivity|]. split.
  - apply (ordered_pairs_checked
             (fun i => (88.3 + (float_of_int i / 600) * (88.6 - 88.3))%float)
             PrimFloat.ltb 600 i j); [vm_compute; reflexivity|lia..].
  - apply (ordered_pairs_checked
             (fun k => (22.7 - (float_of_int k / 400) * (22.7 - 22.5))%float)
             (fun a b => PrimFloat.ltb b a) 400 k l); [vm_compute; reflexivity|lia..].
Qed.

Section ExactTransform.
Local Open Scope Q_scope.

Lemma exact_scale_lt (x1 x2 w d : Q) :
  0 < w -> 0 < d -> x1 < x2 -> (x1 / w) * d < (x2 / w) * d.
Proof.
  intros Hw Hd Hx.
  apply Qmult_lt_compat_r; [exact Hd|].
  unfold Qdiv. apply Qmult_lt_compat_r; [|exact Hx].
  apply Qinv_lt_0_compat. exact Hw.
Qed.

Lemma exact_lon_lt (west t1 t2 : Q) : t1 < t2 -> west + t1 < west + t2.
Proof. intros Ht. apply Qplus_lt_r. exact Ht. Qed.

Lemma exact_lat_lt (north t1 t2 : Q) : t1 < t2 -> north - t2 < north - t1.
Proof.
  intros Ht. unfold Qminus. apply Qplus_lt_r.
  apply Qopp_lt_compat. exact Ht.
Qed.

Lemma exact_span_pos (lo hi : Q) : lo < hi -> 0 < hi - lo.
Proof. intros Hlt. apply (Qplus_lt_l _ _ lo). ring_simplify. exact Hlt. Qed.

End ExactTransform.


(** ** The colour mask *)

Lemma foldl_insert_seq {A : Type} (f : nat -> A) (mask : list A) (n : nat) :
  (n <= length mask)%nat ->
  foldl (fun mask i => <[i := f i]> mask) mask (seq 0 n) =
    (f <$> seq 0 n) ++ drop n mask.
Proof.
  induction n as [|n IH]; intros Hn.
  - reflexivity.
  - rewrite seq_S, foldl_snoc, IH by lia. simpl.
    rewrite fmap_app. simpl.
    destruct (lookup_lt_is_Some_2 mask n) as [a Ha]; [lia|].
    rewrite (drop_S mask a n Ha).
    rewrite insert_app_r_alt by (rewrite length_fmap, length_seq; lia).
    rewrite length_fmap, length_seq, Nat.sub_diag. simpl.
    rewrite <- app_assoc. reflexivity.
Qed.

Lemma for_loop_fills {A : Type} (f : nat -> A) (mask : list A) :
  foldl (fun mask i => <[i := f i]> mask) mask (seq 0 (length mask)) =
    f <$> seq 0 (length mask).
Proof.
  rewrite foldl_insert_seq by lia. rewrite drop_all. apply app_nil_r.
Qed.

(** The bytes of pixel [k] of a rectangle, in the array that [getImageData]
    returns. *)
Lemma getImageData_lookup (cv : Canvas) (sx sy sw sh : Z) (imgData : list Z)
    (k c : nat) :
  getImageData cv sx sy sw sh = Normal imgData ->
  Z.of_nat k < sw * sh ->
  (c < 4)%nat ->
  imgData !! (k * 4 + c)%nat =
    Some (canvas_channel cv (sx + Z.of_nat k `mod` sw) (sy + Z.of_nat k `div` sw)
            (Z.of_nat c)).
Proof.
  unfold getImageData. destruct ((sw =? 0) || (sh =? 0)); [discriminate|].
  intros [= <-] Hk Hc.
  apply (join_lookup_Some_same_length' 4).
  - apply Forall_fmap, Forall_forall. intros i _. reflexivity.
  - exact Hc.
  - eexists. split.
    + rewrite list_lookup_fmap.
      rewrite (proj2 (lookup_seqZ 0 (sw * sh) k (Z.of_nat k))) by lia.
      reflexivity.
    + destruct c as [|[|[|[|c]]]]; try lia; reflexivity.
Qed.

Lemma getImageData_nonempty (cv : Canvas) (sx sy sw sh : Z) :
  0 < sw -> 0 < sh -> exists imgData, getImageData cv sx sy sw sh = Normal imgData.
Proof.
  intros Hw Hh. unfold getImageData.
  destruct (Z.eqb_spec sw 0); [lia|]. destruct (Z.eqb_spec sh 0); [lia|].
  eexists. reflexivity.
Qed.

Lemma flag_is_1 (c : bool) : (if c then 1 else 0) = 1 <-> c = true.
Proof. destruct c; split; intros; congruence. Qed.

Lemma maskByColor_mask (cv : Canvas) (lower upper imgData : list Z) :
  getImageData cv 0 0 (width cv) (height cv) = Normal imgData ->
  maskByColor lower upper cv =
    Normal (mask_entry imgData lower upper <$> seq 0 (Z.to_nat (width cv * height cv))).
Proof.
  intros Hd. unfold maskByColor. rewrite Hd. simpl.
  rewrite for_loop_fills, length_replicate. reflexivity.
Qed.

Lemma mask_entry_window (cv : Canvas) (imgData : list Z) (r g b tol x y : Z) :
  raster cv ->
  getImageData cv 0 0 (width cv) (height cv) = Normal imgData ->
  0 <= x < width cv -> 0 <= y < height cv ->
  mask_entry imgData
    ((fun v => Z.max 0 (v - tol)) <$> [r; g; b])
    ((fun v => Z.min 255 (v + tol)) <$> [r; g; b])
    (Z.to_nat (y * width cv + x)) = 1 <->
  pixel_in_window cv r g b tol x y.
Proof.
  intros [Hw Hh] Hd Hx Hy.
  assert (Hk : Z.of_nat (Z.to_nat (y * width cv + x)) = y * width cv + x) by nia.
  assert (Hlt : y * width cv + x < width cv * height cv) by nia.
  assert (Hmod : (y * width cv + x) `mod` width cv = x).
  { rewrite Z.add_comm, Z.mod_add by lia. apply Z.mod_small. lia. }
  assert (Hdiv : (y * width cv + x) `div` width cv = y).
  { rewrite Z.add_comm, Z.div_add by lia. rewrite Z.div_small by lia. lia. }
  pose proof (getImageData_lookup cv 0 0 _ _ imgData (Z.to_nat (y * width cv + x)) 0
                Hd ltac:(lia) ltac:(lia)) as H0.
  pose proof (getImageData_lookup cv 0 0 _ _ imgData (Z.to_nat (y * width cv + x)) 1
                Hd ltac:(lia) ltac:(lia)) as H1.
  pose proof (getImageData_lookup cv 0 0 _ _ imgData (Z.to_nat (y * width cv + x)) 2
                Hd ltac:(lia) ltac:(lia)) as H2.
  rewrite Hk, Hmod, Hdiv, !Z.add_0_l in H0, H1, H2.
  rewrite Nat.add_0_r in H0. cbn [Z.of_nat Pos.of_succ_nat Pos.succ] in H0, H1, H2.
  unfold mask_entry, pixel_in_window, in_window. cbv zeta.
  rewrite H0, H1, H2. cbn [fmap list_fmap lookup list_lookup js_ge js_le].
  rewrite flag_is_1, !andb_true_iff, !Z.leb_le. tauto.
Qed.

Lemma mask_entry_flag (imgData lower upper : list Z) (i : nat) :
  mask_entry imgData lower upper i = 1 \/ mask_entry imgData lower upper i = 0.
Proof. unfold mask_entry. cbv zeta. case (_ && _); auto. Qed.

Lemma in_window_exact (t v : Z) : 0 <= t <= 255 -> in_window t 0 v <-> v = t.
Proof. unfold in_window. lia. Qed.

(** C2: on a raster, for a target colour [(r, g, b)] of bytes and a
    tolerance [tol] (non-negative or not), the mask is computed, has
    [width * height] cells,
    and the cell of pixel [(x, y)] is 1 exactly when each of the three
    channels of the pixel lies in the inclusive window
    [[max(0, t - tol), min(255, t + tol)]] around the target channel [t], and
    0 otherwise; with [tol = 0] the cell is 1 exactly when the pixel has the
    target colour. *)
Theorem computeMask_spec (cv : Canvas) (r g b tol : Z) :
  raster cv ->
  0 <= r <= 255 -> 0 <= g <= 255 -> 0 <= b <= 255 ->
  exists mask,
    computeMask cv [r; g; b] tol = Normal mask /\
    Z.of_nat (length mask) = width cv * height cv /\
    (forall x y, 0 <= x < width cv -> 0 <= y < height cv ->
       exists m, mask !! Z.to_nat (y * width cv + x) = Some m /\
         (m = 1 <-> pixel_in_window cv r g b tol x y) /\
         (m = 0 <-> ~ pixel_in_window cv r g b tol x y)) /\
    (tol = 0 ->
     forall x y, 0 <= x < width cv -> 0 <= y < height cv ->
       mask !! Z.to_nat (y * width cv + x) = Some 1 <->
       canvas_channel cv x y 0 = r /\
       canvas_channel cv x y 1 = g /\
       canvas_channel cv x y 2 = b).
Proof.
  intros Hr Hrr Hgr Hbr. pose proof Hr as [Hw Hh].
  destruct (getImageData_nonempty cv 0 0 _ _ Hw Hh) as [imgData Hd].
  unfold computeMask. rewrite (maskByColor_mask cv _ _ imgData Hd).
  eexists. split; [reflexivity|].
  assert (Hcell : forall x y, 0 <= x < width cv -> 0 <= y < height cv ->
    (mask_entry imgData ((fun v => Z.max 0 (v - tol)) <$> [r; g; b])
                        ((fun v => Z.min 255 (v + tol)) <$> [r; g; b])
       <$> seq 0 (Z.to_nat (width cv * height cv))) !! Z.to_nat (y * width cv + x) =
    Some (mask_entry imgData ((fun v => Z.max 0 (v - tol)) <$> [r; g; b])
                        ((fun v => Z.min 255 (v + tol)) <$> [r; g; b])
                        (Z.to_nat (y * width cv + x)))).
  { intros x y Hx Hy. rewrite list_lookup_fmap, lookup_seq_lt by nia. reflexivity. }
  split; [|split].
  - rewrite length_fmap, length_seq. nia.
  - intros x y Hx Hy. eexists. split; [apply Hcell; assumption|].
    pose proof (mask_entry_window cv imgData r g b tol x y Hr Hd Hx Hy) as Hiff.
    split; [exact Hiff|].
    destruct (mask_entry_flag imgData ((fun v => Z.max 0 (v - tol)) <$> [r; g; b])
                ((fun v => Z.min 255 (v + tol)) <$> [r; g; b])
                (Z.to_nat (y * width cv + x))) as [E|E]; rewrite E in Hiff |- *.
    + split; [discriminate|]. intros Hn. exfalso. apply Hn, Hiff. reflexivity.
    + split; [|reflexivity]. intros _ Hp. apply Hiff in Hp. discriminate.
  - intros -> x y Hx Hy. rewrite Hcell by assumption.
    pose proof (mask_entry_window cv imgData r g b 0 x y Hr Hd Hx Hy) as Hiff.
    unfold pixel_in_window in Hiff. rewrite !in_window_exact in Hiff by assumption.
    etransitivity; [|exact Hiff].
    split; [intros [= E]; exact E|intros E; f_equal; exact E].
Qed.

Lemma computeMask_spec_witness :
  exists mask,
    computeMask two_pixels [100; 100; 100] 30 = Normal mask /\
    Z.of_nat (length mask) = 2 * 1 /\
    (forall x y, 0 <= x < 2 -> 0 <= y < 1 ->
       exists m, mask !! Z.to_nat (y * 2 + x) = Some m /\
         (m = 1 <-> pixel_in_window two_pixels 100 100 100 30 x y) /\
         (m = 0 <-> ~ pixel_in_window two_pixels 100 100 100 30 x y)) /\
    (30 = 0 ->
     forall x y, 0 <= x < 2 -> 0 <= y < 1 ->
       mask !! Z.to_nat (y * 2 + x) = Some 1 <->
       canvas_channel two_pixels x y 0 = 100 /\
       canvas_channel two_pixels x y 1 = 100 /\
       canvas_channel two_pixels x y 2 = 100).
Proof.
  apply (computeMask_spec two_pixels 100 100 100 30);
    unfold raster; simpl; lia.
Defined.

(** The example of the specification: with tolerance 30 around
    (100, 100, 100), the pixel (120, 90, 110) matches and the pixel
    (140, 100, 100) does not. *)
Example computeMask_two_pixels :
  computeMask two_pixels [100; 100; 100] 30 = Normal [1; 0].
Proof. reflexivity. Qed.

Example computeMask_two_pixels_exact :
  computeMask two_pixels [120; 90; 110] 0 = Normal [1; 0].
Proof. reflexivity. Qed.

(** ** [exportGeoJSON] *)

Lemma string_app_assoc (s1 s2 s3 : string) :
  ((s1 ++ s2) ++ s3 = s1 ++ (s2 ++ s3))%string.
Proof. induction s1 as [|a s1 IH]; simpl; [reflexivity|]. now rewrite IH. Qed.

Section ExportFacts.
Context {num : Type}.
Variable JSON_stringify : FeatureCollection num -> string.

Lemma rgb_string_channels (r g b : Z) :
  rgb_string (r, g, b) =
    ("rgb(" ++ int_to_string r ++ "," ++ int_to_string g ++ "," ++
     int_to_string b ++ ")")%string.
Proof.
  unfold rgb_string. cbn [fmap list_fmap String.concat].
  rewrite !string_app_assoc. reflexivity.
Qed.

Lemma copy_point_pair (p : list num) :
  length p = 2%nat -> copy_point p = Some <$> p.
Proof. destruct p as [|x [|y [|z p]]]; try discriminate. reflexivity. Qed.

Lemma exportGeoJSON_features_lookup (polygons : list (list (list num)))
    (color : Z * Z * Z) (i : nat) (ring : list (list num)) :
  polygons !! i = Some ring ->
  exportGeoJSON_features polygons color !! i =
    Some (mkFeature "Feature"
            (mkGeometry "Polygon" [copy_point <$> ring])
            (mkProperties i (rgb_string color))).
Proof.
  intros Hi. unfold exportGeoJSON_features.
  rewrite list_lookup_imap, Hi. reflexivity.
Qed.

Lemma exportGeoJSON_features_length (polygons : list (list (list num)))
    (color : Z * Z * Z) :
  length (exportGeoJSON_features polygons color) = length polygons.
Proof. unfold exportGeoJSON_features. apply length_imap. Qed.

Lemma exportGeoJSON_saves {St : Type} (polygons : list (list (list num)))
    (color : Z * Z * Z) (w : Browser St) :
  exportGeoJSON JSON_stringify polygons color w =
    mkBrowser (page_state w)
      (downloads w ++
       [mkSavedFile "features.geojson" "application/json"
          (JSON_stringify (exportGeoJSON_geojson polygons color))]).
Proof. reflexivity. Qed.

(** C3: for [n] rings of 2-tuples and a colour [(r, g, b)], the document
    that [exportGeoJSON] serializes and saves is a FeatureCollection with
    [n] features, in the order of the rings; feature [i] is a Feature whose
    geometry is a Polygon with, as coordinates, the one-element list holding
    ring [i] with every pair as it was passed, whose [id] is [i] and whose
    colour is the text [rgb(r,g,b)]. *)
Theorem exportGeoJSON_feature_per_ring {St : Type}
    (polygons : list (list (list num))) (r g b : Z) (w : Browser St) :
  (forall ring p, ring ∈ polygons -> p ∈ ring -> length p = 2%nat) ->
  exists doc,
    exportGeoJSON JSON_stringify polygons (r, g, b) w =
      mkBrowser (page_state w)
        (downloads w ++
         [mkSavedFile "features.geojson" "application/json" (JSON_stringify doc)]) /\
    collection_type doc = "FeatureCollection"%string /\
    length (features doc) = length polygons /\
    forall i ring, polygons !! i = Some ring ->
      features doc !! i =
        Some (mkFeature "Feature"
                (mkGeometry "Polygon" [(fmap Some) <$> ring])
                (mkProperties i
                   ("rgb(" ++ int_to_string r ++ "," ++ int_to_string g ++ "," ++
                    int_to_string b ++ ")")%string)).
Proof.
  intros Hpairs. exists (exportGeoJSON_geojson polygons (r, g, b)).
  split; [apply exportGeoJSON_saves|]. split; [reflexivity|].
  split; [apply exportGeoJSON_features_length|].
  intros i ring Hi. simpl.
  rewrite (exportGeoJSON_features_lookup _ _ _ _ Hi), rgb_string_channels.
  do 4 f_equal.
  apply list_fmap_ext. intros k p Hk. apply copy_point_pair.
  apply (Hpairs ring p).
  - eapply list_elem_of_lookup_2. exact Hi.
  - eapply list_elem_of_lookup_2. exact Hk.
Qed.

(** C4, amended: [exportGeoJSON] checks nothing and signals nothing: for
    every list of rings the document is built and saved, and an entry of a
    ring is written as the pair of its first two cells, so that cells after
    the second are dropped and a missing cell is written as [undefined]. *)
Theorem exportGeoJSON_copies_two_cells {St : Type}
    (polygons : list (list (list num))) (color : Z * Z * Z) (w : Browser St) :
  exists doc,
    exportGeoJSON JSON_stringify polygons color w =
      mkBrowser (page_state w)
        (downloads w ++
         [mkSavedFile "features.geojson" "application/json" (JSON_stringify doc)]) /\
    length (features doc) = length polygons /\
    forall i ring, polygons !! i = Some ring ->
      exists f, features doc !! i = Some f /\
        exists out, coordinates (geometry f) = [out] /\
          length out = length ring /\
          forall k p, ring !! k = Some p -> out !! k = Some [p !! 0%nat; p !! 1%nat].
Proof.
  exists (exportGeoJSON_geojson polygons color).
  split; [apply exportGeoJSON_saves|].
  split; [apply exportGeoJSON_features_length|].
  intros i ring Hi. eexists. split.
  - simpl. apply exportGeoJSON_features_lookup. exact Hi.
  - eexists. split; [reflexivity|]. split; [apply length_fmap|].
    intros k p Hk. rewrite list_lookup_fmap, Hk. reflexivity.
Qed.

(** C7: exporting no ring saves the file all the same, and the document
    serialized in it is the FeatureCollection with an empty [features]
    array. *)
Theorem exportGeoJSON_empty {St : Type} (color : Z * Z * Z) (w : Browser St) :
  exportGeoJSON JSON_stringify [] color w =
    mkBrowser (page_state w)
      (downloads w ++
       [mkSavedFile "features.geojson" "application/json"
          (JSON_stringify (mkFeatureCollection "FeatureCollection" []))]).
Proof. reflexivity. Qed.

(** C10: the file that [exportGeoJSON] saves is a function of the rings and
    the colour alone: two calls with the same rings and the same colour,
    made from any two pages in any two states, save the same file, and the
    state of neither page is changed. *)
Theorem exportGeoJSON_deterministic {St1 St2 : Type}
    (polygons : list (list (list num))) (color : Z * Z * Z)
    (w1 : Browser St1) (w2 : Browser St2) :
  exists file,
    file = mkSavedFile "features.geojson" "application/json"
             (JSON_stringify (exportGeoJSON_geojson polygons color)) /\
    downloads (exportGeoJSON JSON_stringify polygons color w1) = downloads w1 ++ [file] /\
    downloads (exportGeoJSON JSON_stringify polygons color w2) = downloads w2 ++ [file] /\
    page_state (exportGeoJSON JSON_stringify polygons color w1) = page_state w1 /\
    page_state (exportGeoJSON JSON_stringify polygons color w2) = page_state w2.
Proof. eexists. repeat split. Qed.
End ExportFacts.

Lemma exportGeoJSON_feature_per_ring_witness :
  exists doc,
    exportGeoJSON (fun _ : FeatureCollection Z => EmptyString)
      [[[0; 0]; [10; 0]; [10; 10]; [0; 10]; [0; 0]]] (255, 0, 0) (mkBrowser tt []) =
      mkBrowser tt [mkSavedFile "features.geojson" "application/json" EmptyString] /\
    collection_type doc = "FeatureCollection"%string /\
    length (features doc) = 1%nat /\
    forall i ring, [[[0; 0]; [10; 0]; [10; 10]; [0; 10]; [0; 0]]] !! i = Some ring ->
      features doc !! i =
        Some (mkFeature "Feature"
                (mkGeometry "Polygon" [(fmap Some) <$> ring])
                (mkProperties i
                   ("rgb(" ++ int_to_string 255 ++ "," ++ int_to_string 0 ++ "," ++
                    int_to_string 0 ++ ")")%string)).
Proof.
  apply (exportGeoJSON_feature_per_ring (fun _ => EmptyString)
           [[[0; 0]; [10; 0]; [10; 10]; [0; 10]; [0; 0]]] 255 0 0 (mkBrowser tt [])).
  intros ring p Hring Hp.
  apply list_elem_of_singleton in Hring. subst ring.
  repeat (apply elem_of_cons in Hp as [->|Hp]; [reflexivity|]).
  apply elem_of_nil in Hp. contradiction.
Defined.

(** The rectangle of the specification, exported from the page: one Polygon
    feature, coloured [rgb(255,0,0)]. *)
Example handleExport_rectangle (JSON_stringify : FeatureCollection Z -> string) :
  handleExport JSON_stringify (mkBrowser (Some (255, 0, 0), Some ((0, 0), (10, 10))) []) =
    mkBrowser (Some (255, 0, 0), Some ((0, 0), (10, 10)))
      [mkSavedFile "features.geojson" "application/json"
         (JSON_stringify
            (mkFeatureCollection "FeatureCollection"
               [mkFeature "Feature"
                  (mkGeometry "Polygon"
                     [[[Some 0; Some 0]; [Some 10; Some 0]; [Some 10; Some 10];
                       [Some 0; Some 10]; [Some 0; Some 0]]])
                  (mkProperties 0 "rgb(255,0,0)")]))].
Proof. reflexivity. Qed.

(** An entry of three cells and an entry of one cell are exported without
    complaint, the first cut to two cells, the second completed with
    [undefined]. *)
Lemma exportGeoJSON_malformed_ring_accepted :
  exportGeoJSON_geojson [[[1; 2; 3]; [4]]] (255, 0, 0) =
    mkFeatureCollection "FeatureCollection"
      [mkFeature "Feature"
         (mkGeometry "Polygon" [[[Some 1; Some 2]; [Some 4; None]]])
         (mkProperties 0 "rgb(255,0,0)")].
Proof. reflexivity. Qed.

(** ** [setGeoBounds] *)

(** C8, amended: [setGeoBounds] checks nothing and signals nothing: whatever
    the four numbers, they become the current [geoBounds], in place of the
    former ones, and the rest of the session is left as it was; that
    [west < east] and [south < north] is left to the caller. *)
Theorem setGeoBounds_stores {num : Type} (n so e w : num) (s : Session num) :
  geoBounds (setGeoBounds n so e w s) = Some (mkGeoBounds n so e w) /\
  canvas (setGeoBounds n so e w s) = canvas s /\
  image (setGeoBounds n so e w s) = image s /\
  picked (setGeoBounds n so e w s) = picked s.
Proof. repeat split. Qed.

(** Bounds with west beyond east and south beyond north are stored as they
    come. *)
Lemma setGeoBounds_accepts_reversed :
  geoBounds (setGeoBounds 22.5%float 22.7%float 88.3%float 88.6%float readme_session) =
    Some reversed_bounds /\
  (east reversed_bounds <=? west reversed_bounds)%float = true /\
  (north reversed_bounds <=? south reversed_bounds)%float = true.
Proof. repeat split. Qed.

(** ** The list of picked features *)

Section Picking.
Context {num : Type} `{Number num}.

Lemma getImageData_pixel (cv : Canvas) (x y : Z) :
  getImageData cv x y 1 1 =
    Normal [canvas_channel cv x y 0; canvas_channel cv x y 1;
            canvas_channel cv x y 2; canvas_channel cv x y 3].
Proof.
  unfold getImageData. cbn [Z.eqb orb].
  change (seqZ 0 (1 * 1)) with [0].
  cbn [fmap list_fmap mjoin list_join app].
  change (0 `mod` 1) with 0. change (0 `div` 1) with 0.
  rewrite !Z.add_0_r. reflexivity.
Qed.

Lemma clicked_rgb_channels (e : ClickEvent) (cv : Canvas) :
  clicked_rgb e cv = Normal (clicked_color cv e).
Proof.
  unfold clicked_rgb, clicked_color. rewrite getImageData_pixel. reflexivity.
Qed.

Lemma computeMask_returns (cv : Canvas) (rgb : list Z) (tolerance : Z) :
  raster cv -> exists mask, computeMask cv rgb tolerance = Normal mask.
Proof.
  intros [Hw Hh]. destruct (getImageData_nonempty cv 0 0 _ _ Hw Hh) as [d Hd].
  unfold computeMask. rewrite (maskByColor_mask cv _ _ d Hd). eexists. reflexivity.
Qed.

Lemma dispatch_click_ready (s : Session num) (e : ClickEvent) :
  image s <> None -> geoBounds s <> None -> raster (canvas s) ->
  dispatch_click s e =
    mkSession (canvas s) (image s) (geoBounds s)
      (picked s ++ option_list (added_feature (canvas s) e)).
Proof.
  intros Hi Hb Hr. unfold dispatch_click, onImageClick, added_feature.
  destruct (image s) as [i|] eqn:Ei; [|contradiction].
  destruct (geoBounds s) as [b|] eqn:Eb; [|contradiction].
  rewrite clicked_rgb_channels. cbn [mbind completion_bind].
  destruct (prompt_answer e) as [[|a l]|]; cbn [option_list].
  - rewrite app_nil_r. destruct s; simpl in *; congruence.
  - destruct (computeMask_returns (canvas s) (clicked_color (canvas s) e) 30 Hr)
      as [mask ->].
    reflexivity.
  - rewrite app_nil_r. destruct s; simpl in *; congruence.
Qed.

(** C9: while an image is loaded and bounds are set, a sequence of clicks
    leaves in [picked] the features that were there followed by one feature
    for each click whose prompt was answered with a label, in the order of
    the clicks: the colour under the click, the label, the contours.
    Nothing is merged, dropped or moved, so two clicks that add the same
    feature leave it twice. *)
Theorem run_clicks_appends_in_order (es : list ClickEvent) (s : Session num) :
  image s <> None -> geoBounds s <> None -> raster (canvas s) ->
  picked (run_clicks es s) = picked s ++ omap (added_feature (canvas s)) es.
Proof.
  unfold run_clicks. revert s.
  induction es as [|e es IH]; intros s Hi Hb Hr.
  - simpl. now rewrite app_nil_r.
  - cbn [foldl]. rewrite (dispatch_click_ready s e Hi Hb Hr).
    rewrite IH by assumption. cbn [picked canvas omap list_omap].
    rewrite <- app_assoc. f_equal.
    destruct (added_feature (canvas s) e); reflexivity.
Qed.
End Picking.

Lemma run_clicks_appends_in_order_witness :
  picked (run_clicks four_clicks picking_session) =
    [mkPickedFeature [120; 90; 110] "water" [];
     mkPickedFeature [120; 90; 110] "water" [];
     mkPickedFeature [140; 100; 100] "rock" []].
Proof.
  apply (run_clicks_appends_in_order four_clicks picking_session);
    [discriminate | discriminate | unfold raster; simpl; lia].
Defined.

(** * Further properties of the code *)

(** ** Clicks on the canvas *)

Section Clicks.
Context {num : Type} `{Number num}.

(** A click leaves the session as it was or appends one feature. *)
Lemma dispatch_click_cases (s : Session num) (e : ClickEvent) :
  dispatch_click s e = s \/
  exists f, added_feature (canvas s) e = Some f /\
    dispatch_click s e =
      mkSession (canvas s) (image s) (geoBounds s) (picked s ++ [f]).
Proof.
  unfold dispatch_click, onImageClick, added_feature.
  destruct (image s) as [i|] eqn:Ei; [|left; reflexivity].
  destruct (geoBounds s) as [b|] eqn:Eb; [|left; reflexivity].
  rewrite clicked_rgb_channels. cbn [mbind completion_bind].
  destruct (prompt_answer e) as [[|a l]|]; [left; reflexivity| |left; reflexivity].
  destruct (computeMask (canvas s) (clicked_color (canvas s) e) 30) as [mask|err];
    cbn [mbind completion_bind mret completion_ret].
  - right. eexists. split; reflexivity.
  - left. reflexivity.
Qed.

Lemma added_feature_shape (cv : Canvas) (e : ClickEvent) (f : PickedFeature num) :
  added_feature cv e = Some f -> labelled f /\ without_contours f.
Proof.
  unfold added_feature, labelled, without_contours.
  destruct (prompt_answer e) as [[|a l]|]; try discriminate.
  intros [= <-]. cbn. repeat split. discriminate.
Qed.

(** X1: until an image is loaded and bounds are set, clicks are lost: no
    sequence of clicks changes anything in the session. *)
Theorem run_clicks_not_ready (es : list ClickEvent) (s : Session num) :
  image s = None \/ geoBounds s = None ->
  run_clicks es s = s.
Proof.
  intros Hnr. unfold run_clicks.
  induction es as [|e es IH]; [reflexivity|].
  cbn [foldl].
  assert (Hd : dispatch_click s e = s).
  { unfold dispatch_click, onImageClick.
    destruct Hnr as [-> | Hb]; [reflexivity|].
    rewrite Hb. destruct (image s); reflexivity. }
  rewrite Hd. exact IH.
Qed.

(** X2: clicks never touch the canvas, the image or the bounds, and they
    never remove or reorder a picked feature: after any sequence of clicks
    the former list of features is a prefix of the new one, which has at most
    one more feature for each click. *)
Theorem run_clicks_only_appends (es : list ClickEvent) (s : Session num) :
  canvas (run_clicks es s) = canvas s /\
  image (run_clicks es s) = image s /\
  geoBounds (run_clicks es s) = geoBounds s /\
  picked s `prefix_of` picked (run_clicks es s) /\
  (length (picked (run_clicks es s)) <= length (picked s) + length es)%nat.
Proof.
  unfold run_clicks. revert s.
  induction es as [|e es IH]; intros s.
  - cbn. repeat split; [reflexivity | lia].
  - cbn [foldl]. destruct (IH (dispatch_click s e)) as (Hc & Hi & Hb & Hp & Hl).
    destruct (dispatch_click_cases s e) as [Hd | (f & _ & Hd)];
      rewrite Hd in Hc, Hi, Hb, Hp, Hl |- *; cbn in *.
    + repeat split; try assumption. lia.
    + repeat split; try assumption.
      * eapply prefix_app_l. exact Hp.
      * rewrite length_app in Hl. cbn in Hl. lia.
Qed.

Lemma getImageData_empty (cv : Canvas) (sx sy sw sh : Z) :
  sw = 0 \/ sh = 0 -> getImageData cv sx sy sw sh = Throw IndexSizeError.
Proof.
  intros [-> | ->]; unfold getImageData; [reflexivity|].
  rewrite orb_true_r. reflexivity.
Qed.

(** X3: on a canvas without pixels (of width or height 0), a click that is
    given a label makes the handler throw when it asks for the bytes of the
    canvas, and nothing is picked: no sequence of clicks changes the
    session. *)
Theorem onImageClick_empty_canvas (s : Session num) (e : ClickEvent)
    (es : list ClickEvent) (a : ascii) (l : string) :
  width (canvas s) = 0 \/ height (canvas s) = 0 ->
  image s <> None -> geoBounds s <> None ->
  prompt_answer e = Some (String a l) ->
  onImageClick e s = Throw IndexSizeError /\ run_clicks es s = s.
Proof.
  intros Hempty Hi Hb Hl.
  assert (Hmask : forall rgb tol, computeMask (canvas s) rgb tol = Throw IndexSizeError).
  { intros rgb tol. unfold computeMask, maskByColor.
    rewrite (getImageData_empty _ _ _ _ _ Hempty). reflexivity. }
  split.
  - unfold onImageClick.
    destruct (image s); [|contradiction]. destruct (geoBounds s); [|contradiction].
    rewrite clicked_rgb_channels, Hl. cbn [mbind completion_bind].
    rewrite Hmask. reflexivity.
  - unfold run_clicks. induction es as [|e' es IH]; [reflexivity|].
    cbn [foldl].
    destruct (dispatch_click_cases s e') as [Hd | (f & Hf & Hd)].
    + rewrite Hd. exact IH.
    + exfalso. revert Hd. unfold dispatch_click, onImageClick.
      destruct (image s); [|contradiction]. destruct (geoBounds s); [|contradiction].
      rewrite clicked_rgb_channels. cbn [mbind completion_bind].
      unfold added_feature in Hf.
      destruct (prompt_answer e') as [[|a' l']|]; try discriminate.
      rewrite Hmask. cbn [mbind completion_bind].
      intros Hd. apply (f_equal picked) in Hd. cbn in Hd.
      apply (f_equal length) in Hd. rewrite length_app in Hd. cbn in Hd. lia.
Qed.
End Clicks.

(** ** More on the colour mask *)

Lemma canvas_channel_byte (cv : Canvas) (x y c : Z) :
  bitmap_bytes cv -> 0 <= canvas_channel cv x y c <= 255.
Proof.
  intros Hb. unfold canvas_channel.
  destruct (_ && _); [|lia].
  destruct (bitmap cv !! Z.to_nat (4 * (y * width cv + x) + c)) as [v|] eqn:Ev.
  - rewrite (list_lookup_total_correct _ _ _ Ev).
    exact (Forall_lookup_1 _ _ _ _ Hb Ev).
  - rewrite list_lookup_total_alt, Ev. cbn. lia.
Qed.

Lemma computeMask_cell (cv : Canvas) (r g b tol x y : Z) :
  raster cv -> 0 <= x < width cv -> 0 <= y < height cv ->
  exists mask,
    computeMask cv [r; g; b] tol = Normal mask /\
    (mask !! Z.to_nat (y * width cv + x) = Some 1 <->
     pixel_in_window cv r g b tol x y).
Proof.
  intros Hr Hx Hy. pose proof Hr as [Hw Hh].
  destruct (getImageData_nonempty cv 0 0 _ _ Hw Hh) as [imgData Hd].
  unfold computeMask. rewrite (maskByColor_mask cv _ _ imgData Hd).
  eexists. split; [reflexivity|].
  rewrite list_lookup_fmap, lookup_seq_lt by nia. cbn [fmap option_fmap option_map].
  etransitivity; [|exact (mask_entry_window cv imgData r g b tol x y Hr Hd Hx Hy)].
  split; [intros [= E]; exact E|intros E; f_equal; exact E].
Qed.

(** X4: the pixel that is clicked belongs to the mask computed from its own
    colour: on a raster of bytes, for a click inside the canvas and a
    tolerance that is not negative (the handler uses 30), the cell of the
    clicked pixel is 1. *)
Theorem computeMask_contains_clicked_pixel (cv : Canvas) (e : ClickEvent) (tol : Z) :
  raster cv -> bitmap_bytes cv ->
  0 <= clientX e - rect_left cv < width cv ->
  0 <= clientY e - rect_top cv < height cv ->
  0 <= tol ->
  exists mask,
    computeMask cv (clicked_color cv e) tol = Normal mask /\
    mask !! Z.to_nat ((clientY e - rect_top cv) * width cv + (clientX e - rect_left cv))
      = Some 1.
Proof.
  intros Hr Hb Hx Hy Htol. unfold clicked_color. cbv zeta.
  destruct (computeMask_cell cv
              (canvas_channel cv (clientX e - rect_left cv) (clientY e - rect_top cv) 0)
              (canvas_channel cv (clientX e - rect_left cv) (clientY e - rect_top cv) 1)
              (canvas_channel cv (clientX e - rect_left cv) (clientY e - rect_top cv) 2)
              tol _ _ Hr Hx Hy) as (mask & Hm & Hcell).
  exists mask. split; [exact Hm|]. apply Hcell.
  unfold pixel_in_window, in_window.
  pose proof (canvas_channel_byte cv (clientX e - rect_left cv) (clientY e - rect_top cv) 0 Hb).
  pose proof (canvas_channel_byte cv (clientX e - rect_left cv) (clientY e - rect_top cv) 1 Hb).
  pose proof (canvas_channel_byte cv (clientX e - rect_left cv) (clientY e - rect_top cv) 2 Hb).
  lia.
Qed.

Lemma in_window_widen (t tol1 tol2 v : Z) :
  tol1 <= tol2 -> in_window t tol1 v -> in_window t tol2 v.
Proof. unfold in_window. lia. Qed.


Lemma mask_entry_agree (d1 d2 lower upper : list Z) (i : nat) :
  (forall c, (c < 3)%nat -> d1 !! (i * 4 + c)%nat = d2 !! (i * 4 + c)%nat) ->
  mask_entry d1 lower upper i = mask_entry d2 lower upper i.
Proof.
  intros Hd. unfold mask_entry. cbv zeta.
  pose proof (Hd 0%nat ltac:(lia)) as H0. rewrite Nat.add_0_r in H0.
  rewrite H0, (Hd 1%nat), (Hd 2%nat) by lia. reflexivity.
Qed.

(** X6: the mask does not look at the alpha channel: on two canvases of the
    same size whose pixels have the same red, green and blue, [maskByColor]
    gives the same result, whatever the bounds. *)
Theorem maskByColor_ignores_alpha (cv1 cv2 : Canvas) (lower upper : list Z) :
  width cv1 = width cv2 -> height cv1 = height cv2 ->
  (forall x y c, 0 <= c < 3 -> canvas_channel cv1 x y c = canvas_channel cv2 x y c) ->
  maskByColor lower upper cv1 = maskByColor lower upper cv2.
Proof.
  intros Hw Hh Hrgb. unfold maskByColor. rewrite <- Hw, <- Hh.
  destruct (getImageData cv1 0 0 (width cv1) (height cv1)) as [d1|err] eqn:E1;
  destruct (getImageData cv2 0 0 (width cv1) (height cv1)) as [d2|err'] eqn:E2;
    cbn [mbind completion_bind mret completion_ret];
    try (unfold getImageData in E1, E2;
         destruct ((width cv1 =? 0) || (height cv1 =? 0)); congruence).
  f_equal. rewrite !for_loop_fills, length_replicate.
  apply list_fmap_ext. intros k i Hi.
  apply lookup_seq in Hi as [-> Hk]. cbn [Nat.add].
  apply mask_entry_agree. intros c Hc.
  rewrite (getImageData_lookup cv1 0 0 _ _ d1 k c E1) by lia.
  rewrite (getImageData_lookup cv2 0 0 _ _ d2 k c E2) by lia.
  f_equal. apply Hrgb. lia.
Qed.

Lemma fmap_seq_constant {A : Type} (f : nat -> A) (x : A) (a n : nat) :
  (forall i, f i = x) -> f <$> seq a n = replicate n x.
Proof.
  intros Hf. revert a. induction n as [|n IH]; intros a; [reflexivity|].
  cbn. rewrite Hf, IH. reflexivity.
Qed.

(** X7: bounds with fewer than three entries match nothing: a bound that is
    missing compares false with every channel, so the mask of a raster is all
    zeros. *)
Theorem maskByColor_missing_bound (cv : Canvas) (lower upper : list Z) :
  raster cv ->
  (length lower < 3)%nat \/ (length upper < 3)%nat ->
  maskByColor lower upper cv =
    Normal (replicate (Z.to_nat (width cv * height cv)) 0).
Proof.
  intros [Hw Hh] Hshort.
  destruct (getImageData_nonempty cv 0 0 _ _ Hw Hh) as [imgData Hd].
  rewrite (maskByColor_mask cv _ _ imgData Hd). f_equal.
  apply fmap_seq_constant. intros i.
  unfold mask_entry. cbv zeta.
  destruct Hshort as [Hl|Hu].
  - rewrite (lookup_ge_None_2 lower 2) by lia.
    destruct (imgData !! (i * 4 + 2)%nat); cbn [js_ge];
      rewrite ?andb_false_r; reflexivity.
  - rewrite (lookup_ge_None_2 upper 2) by lia.
    destruct (imgData !! (i * 4 + 2)%nat); cbn [js_le];
      rewrite ?andb_false_r; reflexivity.
Qed.

(** ** Drawing the picked contours on the map *)

Lemma mapM_Normal {A B : Type} (g : A -> B) (l : list A) :
  mapM (fun x => Normal (g x)) l = Normal (g <$> l).
Proof.
  induction l as [|x l IH]; [reflexivity|].
  cbn [mapM mbind completion_bind]. cbn [mapM] in IH. rewrite IH. reflexivity.
Qed.

Lemma mapM_completion_ext {A B : Type} (f g : A -> completion B) (l : list A) :
  (forall x, f x = g x) -> mapM f l = mapM g l.
Proof.
  intros Hfg. induction l as [|x l IH]; [reflexivity|].
  cbn [mapM mbind completion_bind]. cbn [mapM] in IH. rewrite Hfg, IH. reflexivity.
Qed.

Section PlotFacts.
Context {P : Type}.
Variable fromLonLat : float * float -> P.

Lemma contour_line_bounds_set (s : Session float) (b : GeoBounds float)
    (c : list (list float)) :
  geoBounds s = Some b ->
  contour_line fromLonLat s c = Normal (line_of fromLonLat s b c).
Proof.
  intros Hb. unfold contour_line, line_of.
  rewrite (mapM_completion_ext _
    (fun p => Normal
       (west b + (to_number (p !! 0%nat) / float_of_int (width (canvas s)))
                 * (east b - west b),
        north b - (to_number (p !! 1%nat) / float_of_int (height (canvas s)))
                  * (north b - south b))%float)).
  - rewrite mapM_Normal. cbn [mbind completion_bind mret completion_ret].
    rewrite <- list_fmap_compose. reflexivity.
  - intros p. unfold pixelToLatLon. rewrite Hb. reflexivity.
Qed.

Lemma plot_features_bounds_set (s : Session float) (b : GeoBounds float) :
  geoBounds s = Some b ->
  plot_features fromLonLat s = Normal (line_of fromLonLat s b <$> picked_contours s).
Proof.
  intros Hb. unfold plot_features, picked_contours.
  rewrite (mapM_completion_ext _
             (fun item => Normal (line_of fromLonLat s b <$> contours item))).
  - rewrite mapM_Normal. cbn [mbind completion_bind mret completion_ret].
    f_equal. induction (picked s) as [|item l IH]; [reflexivity|].
    cbn [fmap list_fmap concat]. cbn [fmap] in IH. rewrite IH, fmap_app. reflexivity.
  - intros item.
    rewrite (mapM_completion_ext _ (fun c => Normal (line_of fromLonLat s b c))).
    + apply mapM_Normal.
    + intros c. apply contour_line_bounds_set. exact Hb.
Qed.

(** X8: [plotGeoJSONOnMap] never throws, with or without bounds.  Without
    bounds, or when no picked feature has a contour, it leaves the map as it
    is; otherwise it adds exactly one layer, which has one line string for
    each contour of the picked features, in their order, with as many points
    as the contour has entries. *)
Theorem plotGeoJSONOnMap_layers (s : Session float) (map : list (list (list P))) :
  exists map',
    plotGeoJSONOnMap fromLonLat s map = Normal map' /\
    (geoBounds s = None \/ picked_contours s = [] -> map' = map) /\
    (geoBounds s <> None -> picked_contours s <> [] ->
     exists layer, map' = map ++ [layer] /\
       length <$> layer = length <$> picked_contours s).
Proof.
  unfold plotGeoJSONOnMap.
  destruct (geoBounds s) as [b|] eqn:Hb.
  - rewrite (plot_features_bounds_set s b Hb).
    cbn [mbind completion_bind].
    destruct (picked_contours s) as [|c cs] eqn:Hc.
    + exists map. split; [reflexivity|]. split; [reflexivity|].
      intros _ Hne. contradiction.
    + eexists. split; [reflexivity|]. split.
      * intros [?|?]; discriminate.
      * intros _ _. eexists. split; [reflexivity|].
        rewrite <- list_fmap_compose. apply list_fmap_ext.
        intros i c' _. unfold line_of. cbn. apply length_fmap.
  - exists map. split; [reflexivity|]. split; [reflexivity|].
    intros Hne. contradiction.
Qed.
End PlotFacts.

(** ** Sessions reached from the start *)

Section Reached.
Context {num : Type} `{Number num}.

Lemma app_step_keeps_shape (s : Session num) (ev : AppEvent num) :
  Forall (fun f => labelled f /\ without_contours f) (picked s) ->
  Forall (fun f => labelled f /\ without_contours f) (picked (app_step s ev)).
Proof.
  intros Hs. destruct ev as [img px|n so e w|e]; cbn [app_step]; try exact Hs.
  destruct (dispatch_click_cases s e) as [Hd | (f & Hf & Hd)]; rewrite Hd.
  - exact Hs.
  - cbn. apply Forall_app. split; [exact Hs|].
    apply Forall_singleton. apply (added_feature_shape _ _ _ Hf).
Qed.

Lemma app_run_keeps_shape (evs : list (AppEvent num)) (s : Session num) :
  Forall (fun f => labelled f /\ without_contours f) (picked s) ->
  Forall (fun f => labelled f /\ without_contours f) (picked (app_run evs s)).
Proof.
  unfold app_run. revert s.
  induction evs as [|ev evs IH]; intros s Hs; [exact Hs|].
  cbn [foldl]. apply IH. apply app_step_keeps_shape. exact Hs.
Qed.

(** X9: whatever happens to a session that starts with the globals as the
    script declares them (images loading, bounds being set, clicks, in any
    order), every picked feature has a label that is not empty, a colour of
    three channels and no contour. *)
Theorem app_run_picked_shape (evs : list (AppEvent num)) (cv : Canvas) :
  Forall (fun f => label f <> EmptyString /\ length (color f) = 3%nat /\ contours f = [])
         (picked (app_run evs (initial_session cv))).
Proof.
  eapply Forall_impl.
  - apply app_run_keeps_shape. cbn. constructor.
  - intros f [[Hl Hc] Hn]. repeat split; assumption.
Qed.
End Reached.

(** X10: so the map is never drawn on: in every session reached from the
    start, [plotGeoJSONOnMap] returns and leaves the map as it is. *)
Theorem plotGeoJSONOnMap_nothing_to_draw {P : Type} (fromLonLat : float * float -> P)
    (evs : list (AppEvent float)) (cv : Canvas) (map : list (list (list P))) :
  plotGeoJSONOnMap fromLonLat (app_run evs (initial_session cv)) map = Normal map.
Proof.
  assert (Hc : picked_contours (app_run evs (initial_session cv)) = []).
  { unfold picked_contours.
    pose proof (app_run_keeps_shape evs (initial_session cv)
                  ltac:(cbn; constructor)) as Hs.
    induction Hs as [|f l [_ Hf] _ IH]; [reflexivity|].
    cbn [fmap list_fmap concat]. rewrite Hf. exact IH. }
  unfold plotGeoJSONOnMap.
  destruct (geoBounds (app_run evs (initial_session cv))) as [b|] eqn:Hb;
    [|reflexivity].
  rewrite (plot_features_bounds_set fromLonLat _ b Hb), Hc. reflexivity.
Qed.

(** ** More on the transform *)

Section ExactRange.
Local Open Scope Q_scope.

Lemma exact_ratio_bounds (x w : Q) :
  0 < w -> (0 <= x /\ x <= w <-> 0 <= x / w /\ x / w <= 1).
Proof.
  intros Hw.
  assert (Hiw : 0 < / w) by (apply Qinv_lt_0_compat; exact Hw).
  assert (Hne : ~ w == 0) by (intros E; rewrite E in Hw; discriminate).
  split; intros [H0 H1]; split.
  - apply Qle_shift_div_l; [exact Hw|]. ring_simplify. exact H0.
  - apply Qle_shift_div_r; [exact Hw|]. ring_simplify. exact H1.
  - assert (E : x == (x / w) * w) by (field; exact Hne). rewrite E.
    apply Qmult_le_0_compat; [exact H0|apply Qlt_le_weak; exact Hw].
  - assert (E : x == (x / w) * w) by (field; exact Hne).
    apply (Qle_trans _ ((x / w) * w)); [rewrite <- E; apply Qle_refl|].
    apply (Qle_trans _ (1 * w)); [|rewrite Qmult_1_l; apply Qle_refl].
    apply Qmult_le_compat_r; [exact H1|apply Qlt_le_weak; exact Hw].
Qed.

Lemma exact_share_bounds (t d : Q) :
  0 < d -> (0 <= t /\ t <= 1 <-> 0 <= t * d /\ t * d <= d).
Proof.
  intros Hd.
  pose proof (exact_ratio_bounds (t * d) d Hd) as Hr.
  assert (Hne : ~ d == 0) by (intros E; rewrite E in Hd; discriminate).
  assert (Ht : t * d / d == t) by (field; exact Hne).
  rewrite Ht in Hr. symmetry. exact Hr.
Qed.
End ExactRange.

Section ExactCorners.
Local Open Scope Q_scope.

Lemma inject_Z_pos (w : Z) : (0 < w)%Z -> 0 < inject_Z w.
Proof. intros Hw. unfold Qlt. cbn. lia. Qed.


End ExactCorners.

(** ** Division by the size of the canvas *)

Lemma nan_absorbs (a b c : float) :
  (a + nan * b = nan /\ c - nan * b = nan)%float.
Proof.
  assert (Hm : (nan * b)%float = nan).
  { apply FloatAxioms.Prim2SF_inj. rewrite FloatAxioms.mul_spec. reflexivity. }
  rewrite Hm. split; apply FloatAxioms.Prim2SF_inj.
  - rewrite FloatAxioms.add_spec. cbn. destruct (Prim2SF a); reflexivity.
  - rewrite FloatAxioms.sub_spec. cbn. destruct (Prim2SF c); reflexivity.
Qed.

(** X13: the size of the canvas is not tested before dividing: on a canvas
    of width and height 0, the pixel (0, 0) is sent to (NaN, NaN), whatever
    the bounds. *)
Theorem pixelToLatLon_empty_canvas_nan (s : Session float) (b : GeoBounds float) :
  geoBounds s = Some b ->
  width (canvas s) = 0%Z -> height (canvas s) = 0%Z ->
  pixelToLatLon 0%float 0%float s = Normal (nan, nan).
Proof.
  intros Hb Hw Hh. unfold pixelToLatLon. rewrite Hb, Hw, Hh.
  cbn [num_add num_sub num_mul num_div num_of_int binary64].
  change (0 / float_of_int 0)%float with nan.
  destruct (nan_absorbs (west b) (east b - west b) (north b)) as [-> _].
  destruct (nan_absorbs (west b) (north b - south b) (north b)) as [_ ->].
  reflexivity.
Qed.

(** ** The page of [terrain-web] *)

Section PageFacts.
Context {num : Type} `{Number num}.
Variable floor : num -> Z.
Variable JSON_stringify : FeatureCollection num -> string.

Lemma page_run_invariant (I : Page num -> Prop) (Q : PageEvent num -> bool)
    (evs : list (PageEvent num)) (p : Page num) :
  (forall p ev, Q ev = false -> I p -> I (page_step floor JSON_stringify p ev)) ->
  Forall (fun ev => Q ev = false) evs ->
  I p -> I (page_run floor JSON_stringify evs p).
Proof.
  intros Hstep Hevs. unfold page_run. revert p.
  induction Hevs as [|ev evs Hev _ IH]; intros p Hp; [exact Hp|].
  cbn [foldl]. apply IH. apply Hstep; assumption.
Qed.

Lemma handleExport_unset (w : Browser (HomeState num)) :
  (page_state w).1 = None \/ (page_state w).2 = None ->
  handleExport JSON_stringify w = w.
Proof.
  unfold handleExport. destruct w as [[[c|] [[s e]|]] d]; cbn;
    intros [?|?]; try discriminate; reflexivity.
Qed.

Lemma handleClick_sets_color (e : MouseEvent num) (c : ImageCanvasState num)
    (w : Browser (HomeState num)) (i : Image) :
  img c = Some i ->
  handleClick floor e (c, w) =
    Normal (c, setColor
                 (canvas_channel (rendered c) (floor (canvas_point e).1)
                    (floor (canvas_point e).2) 0,
                  canvas_channel (rendered c) (floor (canvas_point e).1)
                    (floor (canvas_point e).2) 1,
                  canvas_channel (rendered c) (floor (canvas_point e).1)
                    (floor (canvas_point e).2) 2) w).
Proof.
  intros Hi. unfold handleClick. rewrite Hi.
  unfold getImageData. cbn [Z.eqb orb].
  change (seqZ 0 (1 * 1)) with [0].
  cbn [fmap list_fmap mjoin list_join app mbind completion_bind].
  change (0 `mod` 1) with 0. change (0 `div` 1) with 0.
  rewrite !Z.add_0_r. reflexivity.
Qed.

(** X14: a mouse-up is heard only after a mouse-down: with no drag under
    way it changes nothing; after a mouse-down it sets the bounds to the pair
    of the point pressed and the point released, both relative to the
    canvas, leaves colour and downloads alone, and ends the drag, so that a
    further mouse-up changes nothing. *)
Theorem drag_sets_bounds (p : Page num) (e1 e2 e3 : MouseEvent num) :
  (start p.1 = None -> page_step floor JSON_stringify p (MouseUp e2) = p) /\
  let p' := page_run floor JSON_stringify [MouseDown e1; MouseUp e2] p in
  (page_state p'.2).2 = Some (canvas_point e1, canvas_point e2) /\
  (page_state p'.2).1 = (page_state p.2).1 /\
  downloads p'.2 = downloads p.2 /\
  start p'.1 = None /\
  page_step floor JSON_stringify p' (MouseUp e3) = p'.
Proof.
  destruct p as [c w]. split.
  - cbn. intros ->. reflexivity.
  - cbn. repeat split.
Qed.

(** X15: nothing is exported before an image has loaded, a drag has been
    made and the canvas has been clicked: when one of the four kinds of
    events (image load, mouse-down, mouse-up, click) is missing among those
    that the page has seen since it was rendered, no file has been
    saved. *)
Theorem no_export_before_setup (evs : list (PageEvent num)) (cv : Canvas) :
  Forall (fun ev => is_load ev = false) evs \/
  Forall (fun ev => is_mouse_down ev = false) evs \/
  Forall (fun ev => is_mouse_up ev = false) evs \/
  Forall (fun ev => is_click ev = false) evs ->
  downloads (page_run floor JSON_stringify evs (initial_page cv)).2 = [].
Proof.
  intros [Hq | [Hq | [Hq | Hq]]].
  - apply (page_run_invariant
             (fun p => img p.1 = None /\ (page_state p.2).1 = None /\ downloads p.2 = [])
             is_load evs (initial_page cv)); [|exact Hq|cbn; auto].
    intros [c w] ev Hev (Hi & Hc & Hd). cbn in Hi, Hc, Hd.
    destruct ev as [i d|e|e|e|]; try discriminate; cbn.
    + auto.
    + destruct (start c); cbn; auto.
    + rewrite Hi. cbn. auto.
    + rewrite handleExport_unset by auto. auto.
  - apply (page_run_invariant
             (fun p => start p.1 = None /\ (page_state p.2).2 = None /\ downloads p.2 = [])
             is_mouse_down evs (initial_page cv)); [|exact Hq|cbn; auto].
    intros [c w] ev Hev (Hs & Hb & Hd). cbn in Hs, Hb, Hd.
    destruct ev as [i d|e|e|e|]; try discriminate; cbn.
    + auto.
    + rewrite Hs. cbn. auto.
    + destruct (img c); cbn; auto.
    + rewrite handleExport_unset by auto. auto.
  - apply (page_run_invariant
             (fun p => (page_state p.2).2 = None /\ downloads p.2 = [])
             is_mouse_up evs (initial_page cv)); [|exact Hq|cbn; auto].
    intros [c w] ev Hev (Hb & Hd). cbn in Hb, Hd.
    destruct ev as [i d|e|e|e|]; try discriminate; cbn.
    + auto.
    + auto.
    + destruct (img c); cbn; auto.
    + rewrite handleExport_unset by auto. auto.
  - apply (page_run_invariant
             (fun p => (page_state p.2).1 = None /\ downloads p.2 = [])
             is_click evs (initial_page cv)); [|exact Hq|cbn; auto].
    intros [c w] ev Hev (Hc & Hd). cbn in Hc, Hd.
    destruct ev as [i d|e|e|e|]; try discriminate; cbn.
    + auto.
    + auto.
    + destruct (start c); cbn; auto.
    + rewrite handleExport_unset by auto. auto.
Qed.

(** X16: once an image has loaded, a drag, a click and the export button
    save one file, [features.geojson], whose document has one Polygon
    feature: the closed ring of five positions around the rectangle between
    the point pressed and the point released, with the colour of the pixel
    under the click. *)
Theorem drag_click_export (p : Page num) (i : Image) (e1 e2 e3 : MouseEvent num) :
  img p.1 = Some i ->
  let x := floor (canvas_point e3).1 in
  let y := floor (canvas_point e3).2 in
  let picked_rgb :=
    (canvas_channel (rendered p.1) x y 0, canvas_channel (rendered p.1) x y 1,
     canvas_channel (rendered p.1) x y 2) in
  downloads
    (page_run floor JSON_stringify
       [MouseDown e1; MouseUp e2; MouseClick e3; ExportButton] p).2 =
  downloads p.2 ++
    [mkSavedFile "features.geojson" "application/json"
       (JSON_stringify
          (mkFeatureCollection "FeatureCollection"
             [mkFeature "Feature"
                (mkGeometry "Polygon"
                   [rectangle_ring (canvas_point e1) (canvas_point e2)])
                (mkProperties 0 (rgb_string picked_rgb))]))].
Proof.
  destruct p as [c w]. cbn [fst snd]. intros Hi.
  unfold page_run. cbn [foldl page_step handleMouseDown handleMouseUp start img rendered].
  rewrite (handleClick_sets_color e3 _ _ i) by exact Hi.
  cbn [fst snd rendered]. reflexivity.
Qed.
End PageFacts.

(** ** More on [exportGeoJSON] *)

Lemma split_at_separator (sep : ascii) (a a' r r' : string) :
  string_avoids sep a -> string_avoids sep a' ->
  (a ++ String sep r = a' ++ String sep r')%string ->
  a = a' /\ r = r'.
Proof.
  revert a'. induction a as [|x a IH]; intros [|x' a'] Ha Ha'; cbn in *.
  - intros [= ->]. split; reflexivity.
  - intros [= E _]. destruct Ha' as [Hx _]. congruence.
  - intros [= E _]. destruct Ha as [Hx _]. congruence.
  - intros [= -> E]. destruct Ha as [_ Ha], Ha' as [_ Ha'].
    destruct (IH a' Ha Ha' E) as [-> ->]. split; reflexivity.
Qed.

Lemma digits_avoid (c : ascii) (d : Decimal.uint) :
  ~ In c ["0"; "1"; "2"; "3"; "4"; "5"; "6"; "7"; "8"; "9"]%char ->
  string_avoids c (NilEmpty.string_of_uint d).
Proof.
  intros Hc. induction d as [|d IH|d IH|d IH|d IH|d IH|d IH|d IH|d IH|d IH|d IH];
    cbn [NilEmpty.string_of_uint string_avoids]; [exact I|..];
    (split; [intros E; apply Hc; rewrite <- E; cbn; tauto|exact IH]).
Qed.

Lemma int_to_string_avoids (c : ascii) (z : Z) :
  ~ In c ["-"; "0"; "1"; "2"; "3"; "4"; "5"; "6"; "7"; "8"; "9"]%char ->
  string_avoids c (int_to_string z).
Proof.
  intros Hc.
  assert (Hd : ~ In c ["0"; "1"; "2"; "3"; "4"; "5"; "6"; "7"; "8"; "9"]%char).
  { intros Hin. apply Hc. right. exact Hin. }
  assert (Hu : forall d, string_avoids c (NilZero.string_of_uint d)).
  { intros d. unfold NilZero.string_of_uint.
    destruct d; try (apply (digits_avoid c _ Hd)).
    cbn. split; [|exact I]. intros E. apply Hd. rewrite <- E. cbn. tauto. }
  unfold int_to_string, NilZero.string_of_int.
  destruct (Z.to_int z) as [d|d]; [apply Hu|].
  cbn [string_avoids]. split; [|apply Hu].
  intros E. apply Hc. rewrite <- E. cbn. tauto.
Qed.

Lemma int_to_string_inj (z1 z2 : Z) :
  int_to_string z1 = int_to_string z2 -> z1 = z2.
Proof.
  unfold int_to_string. intros E.
  assert (Hn : forall z, Z.to_int z <> Decimal.Pos Decimal.Nil /\
                         Z.to_int z <> Decimal.Neg Decimal.Nil).
  { intros [|p|p]; cbn; split; try discriminate;
      intros [= Hp]; exact (DecimalPos.Unsigned.to_uint_nonnil p Hp). }
  apply (f_equal NilZero.int_of_string) in E.
  rewrite !NilZero.isi in E by apply Hn.
  injection E as E. apply (f_equal Z.of_int) in E.
  rewrite !DecimalZ.of_to in E. exact E.
Qed.

(** X17: the colour text identifies the colour: two colours with the same
    [rgb(r,g,b)] text are the same colour. *)
Theorem rgb_string_inj (c1 c2 : Z * Z * Z) :
  rgb_string c1 = rgb_string c2 -> c1 = c2.
Proof.
  destruct c1 as [[r1 g1] b1], c2 as [[r2 g2] b2].
  rewrite !rgb_string_channels. intros E.
  cbn [String.append] in E. injection E as E.
  change ("," ++ ?s)%string with (String "," s) in E.
  assert (Hcomma : forall z, string_avoids "," (int_to_string z)).
  { intros z. apply int_to_string_avoids. cbn. intros H.
    repeat (destruct H as [H|H]; [discriminate H|]). exact H. }
  assert (Hparen : forall z, string_avoids ")" (int_to_string z)).
  { intros z. apply int_to_string_avoids. cbn. intros H.
    repeat (destruct H as [H|H]; [discriminate H|]). exact H. }
  apply split_at_separator in E as [Er E]; [|apply Hcomma..].
  change ("," ++ ?s)%string with (String "," s) in E.
  apply split_at_separator in E as [Eg E]; [|apply Hcomma..].
  apply split_at_separator in E as [Eb _]; [|apply Hparen..].
  apply int_to_string_inj in Er, Eg, Eb. congruence.
Qed.

(** X18: exporting two lists of rings in one call gives the features of the
    first list followed by those of the second, with the ids of the second
    moved up by the number of rings of the first: ids count the rings of the
    call they are in. *)
Theorem exportGeoJSON_features_app {num : Type}
    (polygons1 polygons2 : list (list (list num))) (color : Z * Z * Z) :
  exportGeoJSON_features (polygons1 ++ polygons2) color =
    exportGeoJSON_features polygons1 color ++
    (shift_id (length polygons1) <$> exportGeoJSON_features polygons2 color).
Proof.
  unfold exportGeoJSON_features. rewrite imap_app. f_equal.
  rewrite fmap_imap. apply imap_ext. intros i ring _. reflexivity.
Qed.

(** ** [autoedit_fix.sh] *)

Section AutoEditFacts.
Variable run : nat -> string -> Z * string.
Variable ask : nat -> string -> string -> Reply.

Lemma retry_loop_bounds (turns RETRY : nat) (CMD : string) (acts : list Action) :
  let out := retry_loop run ask turns RETRY CMD acts in
  (length (List.filter is_run (actions out)) <= length (List.filter is_run acts) + turns)%nat /\
  (length (List.filter is_ask (actions out)) <= length (List.filter is_ask acts) + turns)%nat /\
  (exit_status out = 0 \/ exit_status out = 1).
Proof.
  revert RETRY CMD acts. induction turns as [|turns IH]; intros RETRY CMD acts.
  - cbn. lia.
  - cbn [retry_loop]. destruct (run RETRY CMD) as [STATUS OUTPUT].
    destruct (STATUS =? 0).
    + cbn. rewrite !List.filter_app, !length_app. cbn. lia.
    + destruct (fixed_cmd (ask RETRY CMD OUTPUT)) as [|a fixed] eqn:Ef.
      * cbn. rewrite !List.filter_app, !length_app. cbn. lia.
      * match goal with |- context [retry_loop run ask turns ?r ?c ?d] =>
          specialize (IH r c d) end.
        cbv zeta in IH. destruct IH as (Hr & Ha & He).
        destruct (file_change (ask RETRY CMD OUTPUT)) as [|b file];
          rewrite !List.filter_app, !length_app in Hr, Ha; cbn in Hr, Ha;
          repeat split; try lia; exact He.
Qed.

(** X19: whatever the commands do and whatever is replied, the script runs
    at most three commands and asks at most three questions, and it ends
    with status 0 or 1. *)
Theorem autoedit_fix_bounded (args : list string) :
  (length (List.filter is_run (actions (autoedit_fix run ask args))) <= 3)%nat /\
  (length (List.filter is_ask (actions (autoedit_fix run ask args))) <= 3)%nat /\
  (exit_status (autoedit_fix run ask args) = 0 \/
   exit_status (autoedit_fix run ask args) = 1).
Proof.
  unfold autoedit_fix. destruct args as [|a args].
  - cbn. repeat split; lia.
  - apply (retry_loop_bounds MAX_RETRIES 0 _ []).
Qed.

Lemma retry_loop_gives_up (turns RETRY : nat) (CMD : string) (acts : list Action) :
  (forall k cmd, (run k cmd).1 <> 0) ->
  (forall k cmd output, fixed_cmd (ask k cmd output) <> EmptyString) ->
  let out := retry_loop run ask turns RETRY CMD acts in
  exit_status out = 0 /\
  length (List.filter is_run (actions out)) = (length (List.filter is_run acts) + turns)%nat /\
  length (List.filter is_ask (actions out)) = (length (List.filter is_ask acts) + turns)%nat.
Proof.
  intros Hfail Hfix. revert RETRY CMD acts.
  induction turns as [|turns IH]; intros RETRY CMD acts.
  - cbn. lia.
  - cbn [retry_loop]. pose proof (Hfail RETRY CMD) as Hs.
    destruct (run RETRY CMD) as [STATUS OUTPUT]. cbn in Hs.
    destruct (Z.eqb_spec STATUS 0) as [E|_]; [contradiction|].
    pose proof (Hfix RETRY CMD OUTPUT) as Hf.
    destruct (fixed_cmd (ask RETRY CMD OUTPUT)) as [|a fixed]; [contradiction|].
    match goal with |- context [retry_loop run ask turns ?r ?c ?d] =>
      specialize (IH r c d) end.
    cbv zeta in IH. destruct IH as (He & Hr & Ha).
    destruct (file_change (ask RETRY CMD OUTPUT)) as [|b file];
      rewrite !List.filter_app, !length_app in Hr, Ha; cbn in Hr, Ha;
      repeat split; try lia; exact He.
Qed.

(** X20: status 0 does not tell that the command worked: when every run
    fails and every reply proposes a fix, the script gives up after exactly
    three runs and three questions and still ends with status 0. *)
Theorem autoedit_fix_gives_up_with_status_0 (args : list string) :
  args <> [] ->
  (forall k cmd, (run k cmd).1 <> 0) ->
  (forall k cmd output, fixed_cmd (ask k cmd output) <> EmptyString) ->
  exit_status (autoedit_fix run ask args) = 0 /\
  length (List.filter is_run (actions (autoedit_fix run ask args))) = 3%nat /\
  length (List.filter is_ask (actions (autoedit_fix run ask args))) = 3%nat.
Proof.
  intros Hargs Hfail Hfix. unfold autoedit_fix.
  destruct args as [|a args]; [contradiction|].
  apply (retry_loop_gives_up MAX_RETRIES 0 _ [] Hfail Hfix).
Qed.
End AutoEditFacts.

Section AutoEditChainFacts.
Variable run : nat -> string -> Z * string.
Variable ask : nat -> string -> string -> Reply.

Lemma commands_run_app (l1 l2 : list Action) :
  commands_run (l1 ++ l2) = commands_run l1 ++ commands_run l2.
Proof. unfold commands_run. apply omap_app. Qed.

Lemma retry_loop_chain (turns RETRY : nat) (cmd0 : string) (acts : list Action) :
  exists n, (n <= turns)%nat /\
    commands_run (actions (retry_loop run ask turns RETRY
                             (command_at run ask RETRY cmd0) acts)) =
      commands_run acts ++
      ((fun k => command_at run ask k cmd0) <$> seq RETRY n).
Proof.
  revert RETRY acts. induction turns as [|turns IH]; intros RETRY acts.
  - exists 0%nat. cbn. rewrite app_nil_r. split; [lia|reflexivity].
  - cbn [retry_loop].
    destruct (run RETRY (command_at run ask RETRY cmd0)) as [STATUS OUTPUT] eqn:Er.
    destruct (STATUS =? 0).
    + exists 1%nat. split; [lia|]. cbn [actions].
      rewrite !commands_run_app. cbn. rewrite app_nil_r. reflexivity.
    + destruct (fixed_cmd (ask RETRY (command_at run ask RETRY cmd0) OUTPUT))
        as [|a fixed] eqn:Ef.
      * exists 1%nat. split; [lia|]. cbn [actions].
        rewrite !commands_run_app. cbn. rewrite app_nil_r. reflexivity.
      * assert (Hnext : String a fixed = command_at run ask (S RETRY) cmd0).
        { cbn [command_at]. rewrite Er. cbn [snd]. rewrite Ef. reflexivity. }
        rewrite Hnext.
        match goal with |- context [retry_loop run ask turns _ _ ?d] =>
          destruct (IH (S RETRY) d) as (n & Hn & Hc) end.
        exists (S n). split; [lia|]. rewrite Hc.
        cbn [seq fmap list_fmap].
        destruct (file_change (ask RETRY (command_at run ask RETRY cmd0) OUTPUT));
          rewrite !commands_run_app; cbn; rewrite ?app_nil_r, <- ?app_assoc;
          reflexivity.
Qed.

(** X21: the commands that the script runs form a chain: the first is its
    arguments joined by spaces, and each later one is the fix proposed for
    the failure of the one before; at most three are run. *)
Theorem autoedit_fix_runs_chain (args : list string) :
  commands_run (actions (autoedit_fix run ask args)) `prefix_of`
    (fun k => command_at run ask k (String.concat " " args)) <$> seq 0 3.
Proof.
  unfold autoedit_fix. destruct args as [|a args].
  - apply prefix_nil.
  - destruct (retry_loop_chain MAX_RETRIES 0 (String.concat " " (a :: args)) [])
      as (n & Hn & Hc).
    cbn [command_at] in Hc. rewrite Hc. cbn [commands_run omap list_omap app].
    unfold MAX_RETRIES in Hn.
    exists ((fun k => command_at run ask k (String.concat " " (a :: args)))
              <$> seq n (3 - n)).
    rewrite <- fmap_app. f_equal.
    replace 3%nat with (n + (3 - n))%nat at 1 by lia.
    rewrite seq_app. reflexivity.
Qed.
End AutoEditChainFacts.

(** ** The properties at work on the examples *)

Lemma run_clicks_not_ready_witness :
  run_clicks four_clicks (initial_session two_pixels : Session float) =
    initial_session two_pixels.
Proof. apply run_clicks_not_ready. left. reflexivity. Defined.

Lemma onImageClick_empty_canvas_witness :
  onImageClick (mkClickEvent 0 0 (Some "water"%string)) empty_session =
    Throw IndexSizeError /\
  run_clicks four_clicks empty_session = empty_session.
Proof.
  apply (onImageClick_empty_canvas empty_session _ four_clicks "w" "ater");
    [left; reflexivity | discriminate | discriminate | reflexivity].
Defined.

Lemma computeMask_contains_clicked_pixel_witness :
  exists mask,
    computeMask two_pixels (clicked_color two_pixels (mkClickEvent 1 0 None)) 30 =
      Normal mask /\
    mask !! 1%nat = Some 1.
Proof.
  apply (computeMask_contains_clicked_pixel two_pixels (mkClickEvent 1 0 None) 30);
    try (unfold raster; simpl; lia).
  unfold bitmap_bytes. simpl. repeat constructor; lia.
Defined.


Lemma maskByColor_ignores_alpha_witness :
  maskByColor [90; 60; 80] [150; 120; 140] two_pixels =
    maskByColor [90; 60; 80] [150; 120; 140] two_pixels_translucent.
Proof.
  apply maskByColor_ignores_alpha; [reflexivity | reflexivity |].
  intros x y c Hc. unfold canvas_channel. simpl width. simpl height.
  destruct ((0 <=? x) && (x <? 2) && (0 <=? y) && (y <? 1)) eqn:E; [|reflexivity].
  rewrite !andb_true_iff, !Z.leb_le, !Z.ltb_lt in E.
  assert (Hy : y = 0) by lia. subst y.
  assert (Hx : x = 0 \/ x = 1) by lia.
  assert (Hcc : c = 0 \/ c = 1 \/ c = 2) by lia.
  destruct Hx as [-> | ->], Hcc as [-> | [-> | ->]]; reflexivity.
Defined.

Lemma maskByColor_missing_bound_witness :
  maskByColor [0; 0] [255; 255; 255] two_pixels = Normal [0; 0].
Proof.
  apply (maskByColor_missing_bound two_pixels [0; 0] [255; 255; 255]);
    [unfold raster; simpl; lia | left; simpl; lia].
Defined.



Lemma pixelToLatLon_empty_canvas_nan_witness :
  pixelToLatLon 0%float 0%float empty_session = Normal (nan, nan).
Proof. apply (pixelToLatLon_empty_canvas_nan empty_session readme_bounds); reflexivity. Defined.

Lemma no_export_before_setup_witness :
  downloads
    (page_run Qfloor first_colour
       [MouseDown press; MouseUp release; MouseClick click_second; ExportButton]
       (initial_page two_pixels)).2 = [].
Proof.
  apply no_export_before_setup. left. repeat constructor.
Defined.

Lemma drag_click_export_witness :
  downloads
    (page_run Qfloor first_colour
       [MouseDown press; MouseUp release; MouseClick click_second; ExportButton]
       loaded_page).2 =
  [mkSavedFile "features.geojson" "application/json" "rgb(140,100,100)"].
Proof.
  exact (drag_click_export Qfloor first_colour loaded_page (mkImage 2 1)
           press release click_second eq_refl).
Defined.

Lemma rgb_string_inj_witness : (255, 0, 0) = (255, 0, 0).
Proof. apply rgb_string_inj. reflexivity. Defined.

Lemma autoedit_fix_gives_up_with_status_0_witness :
  exit_status (autoedit_fix always_fails always_fix ["make"; "all"]%string) = 0 /\
  length (List.filter is_run
            (actions (autoedit_fix always_fails always_fix ["make"; "all"]%string))) = 3%nat /\
  length (List.filter is_ask
            (actions (autoedit_fix always_fails always_fix ["make"; "all"]%string))) = 3%nat.
Proof.
  apply autoedit_fix_gives_up_with_status_0; [discriminate | discriminate..].
Defined.
